(** * LenslessPiCam: 3D model of an amplitude mask

    A shallow embedding of [lensless/hardware/mask_3dmodel.py] and the
    properties of the frame, connection and aperture generators.

    Numbers.  The Python code computes with NumPy floats; in the geometry
    they are real numbers, so those statements are about exact arithmetic.
    Module [float64] gives the value of a double, for the one place where
    the rounding is the point.  Array indices and shapes are [nat], mask
    cells are integers.

    CadQuery.  The generators are chains of CadQuery calls.  Module [cq]
    models the calls the repository uses: a workplane is a stack of
    objects with a modelling context, a solid is a term over boxes,
    cylinders, prisms and boolean operations, and [cq.inside] gives the
    set of points of a solid.  The calls raise where the geometry kernel
    refuses their arguments: a box or a cylinder with a dimension that is
    not positive, and an edge between two coinciding points. *)

From Stdlib Require Import Reals Lra List ZArith Lia String Bool Setoid.
From Stdlib Require PrimFloat FloatOps SpecFloat.
Import ListNotations.
Local Open Scope R_scope.

(** * Outcomes of a Python call *)

(** An exception, by class name and message. *)
Record exn : Type := PyExn { exn_class : string; exn_msg : string }.

(** A call returns a value or raises.  [NoModel] marks a call whose value
    the geometry kernel determines in a way the model cannot compute (the
    centre of mass of an asymmetric compound). *)
Inductive result (A : Type) : Type :=
| Ok (a : A)
| Raise (e : exn)
| NoModel.

Arguments Ok {A} a.
Arguments Raise {A} e.
Arguments NoModel {A}.

Definition bind {A B : Type} (r : result A) (k : A -> result B) : result B :=
  match r with
  | Ok a => k a
  | Raise e => Raise e
  | NoModel => NoModel
  end.

Notation "r >>= k" := (bind r k) (at level 50, left associativity).
Notation "'let*' x ':=' r 'in' k" := (bind r (fun x => k))
  (at level 10, x name, r at level 100, k at level 200).

(** The call raised: no value came back. *)
Definition raises {A : Type} (r : result A) : Prop := exists e, r = Raise e.

(** The call raised an exception of class [cls]. *)
Definition raises_class {A : Type} (cls : string) (r : result A) : Prop :=
  exists e, r = Raise e /\ exn_class e = cls.

(** The call returned [a]. *)
Definition returns {A : Type} (r : result A) (a : A) : Prop := r = Ok a.

(** * CadQuery *)

Module cq.

Record Vector : Type := V3 { vx : R; vy : R; vz : R }.

Definition origin : Vector := V3 0 0 0.

Definition Vadd (a b : Vector) : Vector :=
  V3 (vx a + vx b) (vy a + vy b) (vz a + vz b).

Definition Vsub (a b : Vector) : Vector :=
  V3 (vx a - vx b) (vy a - vy b) (vz a - vz b).

Definition Vector_eq_dec (a b : Vector) : {a = b} + {a <> b}.
Proof.
  destruct a as [ax ay az], b as [bx b_y bz].
  destruct (Req_dec_T ax bx) as [Hx | Hx];
    [destruct (Req_dec_T ay b_y) as [Hy | Hy];
       [destruct (Req_dec_T az bz) as [Hz | Hz] | ] | ];
    try (left; congruence); right; intros E; injection E; intros; contradiction.
Defined.

(** A closed planar polyline through [pts], in order; the edge from the
    last vertex back to the first is implied. *)
Inductive Wire : Type := Polygon (pts : list Vector).

Definition vertices (w : Wire) : list Vector :=
  match w with Polygon pts => pts end.

(** Solids.  [Box pnt l w h] is [Solid.makeBox(l, w, h, pnt)]: the box
    with minimum corner [pnt]; [Cylinder pnt r h] is
    [Solid.makeCylinder(r, h, pnt)], its axis along +z from [pnt];
    [Prism w d] extrudes the face of [w] by [d] along +z; [ThruCut s w]
    removes from [s] the infinite prism over the face of [w]. *)
Inductive Shape : Type :=
| Box (pnt : Vector) (length width height : R)
| Cylinder (pnt : Vector) (radius height : R)
| Prism (w : Wire) (distance : R)
| Fuse (a b : Shape)
| Cut (a b : Shape)
| ThruCut (a : Shape) (w : Wire).

Definition Wire_moved (loc : Vector) (w : Wire) : Wire :=
  Polygon (map (Vadd loc) (vertices w)).

(** [Shape.moved(loc)] for a translation. *)
Fixpoint moved (loc : Vector) (s : Shape) : Shape :=
  match s with
  | Box pnt l w h => Box (Vadd loc pnt) l w h
  | Cylinder pnt r h => Cylinder (Vadd loc pnt) r h
  | Prism w d => Prism (Wire_moved loc w) d
  | Fuse a b => Fuse (moved loc a) (moved loc b)
  | Cut a b => Cut (moved loc a) (moved loc b)
  | ThruCut a w => ThruCut (moved loc a) (Wire_moved loc w)
  end.

(** [Shape.Center()], the centre of mass.  A box and a cylinder have it at
    their centre of symmetry, and so has a union or a difference of two
    solids symmetric about the same point; elsewhere the model has no
    value. *)
Fixpoint Center (s : Shape) : option Vector :=
  match s with
  | Box pnt l w h => Some (Vadd pnt (V3 (l / 2) (w / 2) (h / 2)))
  | Cylinder pnt r h => Some (Vadd pnt (V3 0 0 (h / 2)))
  | Fuse a b | Cut a b =>
      match Center a, Center b with
      | Some ca, Some cb => if Vector_eq_dec ca cb then Some ca else None
      | _, _ => None
      end
  | Prism _ _ | ThruCut _ _ => None
  end.

(** What a workplane's stack holds. *)
Inductive Obj : Type :=
| OVector (v : Vector)
| OEdge (startPoint endPoint : Vector)
| OWire (w : Wire)
| OShape (s : Shape).

(** A workplane on the XY plane: its stack, the solid an ancestor in the
    call chain holds, and the modelling context the chain shares. *)
Record Workplane : Type := mkWorkplane {
  objects : list Obj;
  parentSolid : option Shape;
  firstPoint : option Vector;
  pendingEdges : list (Vector * Vector);
  pendingWires : list Wire
}.

(** [cq.Workplane("XY")]. *)
Definition XY : Workplane := mkWorkplane [] None None [] [].

Definition solids (objs : list Obj) : list Shape :=
  flat_map (fun o => match o with OShape s => [s] | _ => [] end) objs.

(** [findSolid()]: the solid on the stack, else the one of the parents. *)
Definition findSolid (wp : Workplane) : option Shape :=
  match solids (objects wp) with
  | s :: _ => Some s
  | [] => parentSolid wp
  end.

Definition newObject (wp : Workplane) (objs : list Obj) : Workplane :=
  mkWorkplane objs (findSolid wp) (firstPoint wp) (pendingEdges wp)
    (pendingWires wp).

Definition no_solid : exn :=
  PyExn "ValueError" "Cannot find a solid on the stack or in the parent chain".

Definition no_wires : exn := PyExn "ValueError" "No pending wires present".

(** The point an object of the stack stands for in [eachpoint]. *)
Definition location (o : Obj) : option Vector :=
  match o with
  | OVector v => Some v
  | OShape s => Center s
  | OEdge a b =>
      Some (V3 ((vx a + vx b) / 2) ((vy a + vy b) / 2) ((vz a + vz b) / 2))
  | OWire _ => None
  end.

Fixpoint locations_of (objs : list Obj) : option (list Vector) :=
  match objs with
  | [] => Some []
  | o :: rest =>
      match location o, locations_of rest with
      | Some v, Some vs => Some (v :: vs)
      | _, _ => None
      end
  end.

(** The points [eachpoint] works on: one per object of the stack, and
    the origin when the stack is empty. *)
Definition locations (wp : Workplane) : option (list Vector) :=
  match objects wp with
  | [] => Some [origin]
  | objs => locations_of objs
  end.

(** [_combineWithBase]: fuse the new solids with the context solid. *)
Definition combineWithBase (wp : Workplane) (res : list Shape) : Workplane :=
  match findSolid wp, res with
  | Some base, _ => newObject wp [OShape (fold_left Fuse res base)]
  | None, r :: rs => newObject wp [OShape (fold_left Fuse rs r)]
  | None, [] => newObject wp []
  end.

(** [eachpoint(callback, useLocalCoordinates=True, combine)] for a
    callback that makes a solid. *)
Definition eachpoint (callback : Vector -> Shape) (combine : bool)
    (wp : Workplane) : result Workplane :=
  match locations wp with
  | None => NoModel
  | Some locs =>
      let res := map callback locs in
      Ok (if combine then combineWithBase wp res
          else newObject wp (map OShape res))
  end.

(** The kernel's refusal of a primitive with a dimension that is not
    positive. *)
Definition domain_error : exn := PyExn "Standard_DomainError" "".

(** The kernel's refusal of an edge between two coinciding points. *)
Definition not_done : exn :=
  PyExn "StdFail_NotDone" "BRep_API: command not done".

Definition positive (x : R) : bool := if Rlt_dec 0 x then true else false.

Definition same_point (a b : Vector) : bool :=
  if Vector_eq_dec a b then true else false.

(** [Solid.makeBox(length, width, height, pnt)]. *)
Definition makeBox (length width height : R) (pnt : Vector) : result Shape :=
  if positive length && positive width && positive height
  then Ok (Box pnt length width height)
  else Raise domain_error.

(** [Solid.makeCylinder(radius, height, pnt)]. *)
Definition makeCylinder (radius height : R) (pnt : Vector) : result Shape :=
  if positive radius && positive height
  then Ok (Cylinder pnt radius height)
  else Raise domain_error.

(** Two consecutive points of the closed polyline through [pts] and back
    to [first] coincide. *)
Fixpoint has_null_edge (first : Vector) (pts : list Vector) : bool :=
  match pts with
  | [] => false
  | a :: rest =>
      match rest with
      | [] => same_point a first
      | b :: _ => same_point a b || has_null_edge first rest
      end
  end.

(** [Wire.makePolygon(points)] for a closed polygon. *)
Definition makePolygon (pts : list Vector) : result Wire :=
  match pts with
  | [] => Ok (Polygon pts)
  | first :: _ =>
      if has_null_edge first pts then Raise not_done else Ok (Polygon pts)
  end.

(** [box(length, width, height, centered, combine)]. *)
Definition box (length width height : R) (centered : bool * bool * bool)
    (combine : bool) (wp : Workplane) : result Workplane :=
  let '(cx, cy, cz) := centered in
  let offset := V3 (if cx then - length / 2 else 0)
                   (if cy then - width / 2 else 0)
                   (if cz then - height / 2 else 0) in
  let* box := makeBox length width height offset in
  eachpoint (fun loc => moved loc box) combine wp.

(** [cylinder(height, radius, centered)], combining by default. *)
Definition cylinder (height radius : R) (centered : bool * bool * bool)
    (wp : Workplane) : result Workplane :=
  let '(cx, cy, cz) := centered in
  let offset := V3 (if cx then 0 else radius)
                   (if cy then 0 else radius)
                   (if cz then - height / 2 else 0) in
  let* s := makeCylinder radius height offset in
  eachpoint (fun loc => moved loc s) true wp.

(** [rect(xLen, yLen)], centred: one rectangle per point of the stack,
    each left on the stack and among the pending wires. *)
Definition rect (xLen yLen : R) (wp : Workplane) : result Workplane :=
  let* w :=
    makePolygon [V3 (xLen / -2) (yLen / -2) 0; V3 (xLen / 2) (yLen / -2) 0;
                 V3 (xLen / 2) (yLen / 2) 0; V3 (xLen / -2) (yLen / 2) 0] in
  match locations wp with
  | None => NoModel
  | Some locs =>
      let res := map (fun loc => Wire_moved loc w) locs in
      Ok (mkWorkplane (map OWire res) (findSolid wp) (firstPoint wp)
            (pendingEdges wp) (pendingWires wp ++ res))
  end.

(** [cutThruAll()]: cut the faces of the pending wires through the
    context solid. *)
Definition cutThruAll (wp : Workplane) : result Workplane :=
  match pendingWires wp with
  | [] => Raise no_wires
  | ws =>
      match findSolid wp with
      | None => Raise no_solid
      | Some s =>
          Ok (mkWorkplane [OShape (fold_left ThruCut ws s)] (Some s)
                (firstPoint wp) (pendingEdges wp) [])
      end
  end.

(** [cut(toCut)] with a workplane: subtract every solid of its stack. *)
Definition cut (toCut : Workplane) (wp : Workplane) : result Workplane :=
  match findSolid wp with
  | None => Raise no_solid
  | Some s =>
      Ok (newObject wp [OShape (fold_left Cut (solids (objects toCut)) s)])
  end.

(** [pushPoints(pntList)] with points of the plane. *)
Definition pushPoints (pntList : list (R * R)) (wp : Workplane)
    : result Workplane :=
  Ok (newObject wp (map (fun p => OVector (V3 (fst p) (snd p) 0)) pntList)).

(** [moveTo(x, y)]. *)
Definition moveTo (x y : R) (wp : Workplane) : result Workplane :=
  Ok (newObject wp [OVector (V3 x y 0)]).

(** [_findFromPoint]: where the next edge starts. *)
Definition findFromPoint (wp : Workplane) : result Vector :=
  match last (map Some (objects wp)) None with
  | None => Ok origin
  | Some (OVector v) => Ok v
  | Some (OEdge _ e) => Ok e
  | Some _ => Raise (PyExn "RuntimeError" "Cannot convert object type to vector")
  end.

(** [lineTo(x, y)]: an edge from the current point; the kernel makes no
    edge between two coinciding points. *)
Definition lineTo (x y : R) (wp : Workplane) : result Workplane :=
  let* startPoint := findFromPoint wp in
  let endPoint := V3 x y 0 in
  if same_point startPoint endPoint then Raise not_done
  else
    Ok (mkWorkplane [OEdge startPoint endPoint] (findSolid wp)
          (match firstPoint wp with
           | None => Some startPoint
           | Some p => Some p
           end)
          (pendingEdges wp ++ [(startPoint, endPoint)]) (pendingWires wp)).

(** [close()]: the pending edges become one closed wire, which is left on
    the stack and among the pending wires. *)
Definition close (wp : Workplane) : result Workplane :=
  let* _ := findFromPoint wp in
  match firstPoint wp with
  | None => Raise (PyExn "ValueError" "No start point specified - cannot close")
  | Some startPoint =>
      let w := Polygon (startPoint :: map snd (pendingEdges wp)) in
      Ok (mkWorkplane [OWire w] (findSolid wp) None [] (pendingWires wp ++ [w]))
  end.

(** [extrude(distance)], combining by default. *)
Definition extrude (distance : R) (wp : Workplane) : result Workplane :=
  match pendingWires wp with
  | [] => Raise no_wires
  | ws =>
      let wp' := mkWorkplane (objects wp) (parentSolid wp) (firstPoint wp)
                   (pendingEdges wp) [] in
      Ok (combineWithBase wp' (map (fun w => Prism w distance) ws))
  end.

(** [add(obj)] with a workplane: its objects join the stack. *)
Definition add (obj : Workplane) (wp : Workplane) : result Workplane :=
  Ok (mkWorkplane (objects wp ++ objects obj) (parentSolid wp) (firstPoint wp)
        (pendingEdges wp) (pendingWires wp)).

Definition is_solid (o : Obj) : bool :=
  match o with
  | OShape _ => true
  | _ => false
  end.

(** [combine(glue)]: fuse the solids of the stack into one.  [glue] selects
    the kernel's algorithm, not the result.  What the kernel makes of a
    stack that holds something else than solids is not modelled. *)
Definition combine (glue : bool) (wp : Workplane) : result Workplane :=
  match objects wp with
  | [] => Raise (PyExn "IndexError" "pop from empty list")
  | _ =>
      if forallb is_solid (objects wp)
      then
        match solids (objects wp) with
        | [] => NoModel
        | s :: items => Ok (newObject wp [OShape (fold_left Fuse items s)])
        end
      else NoModel
  end.

(** [vals()] of a returned workplane: the solids on its stack. *)
Definition vals (r : result Workplane) : result (list Shape) :=
  let* wp := r in Ok (solids (objects wp)).

(** The profiles a solid was extruded from. *)
Fixpoint profiles (s : Shape) : list Wire :=
  match s with
  | Prism w _ => [w]
  | Fuse a b | Cut a b => profiles a ++ profiles b
  | ThruCut a _ => profiles a
  | Box _ _ _ _ | Cylinder _ _ _ => []
  end.

(** ** The points of a solid *)

(** The ray from [(x, y)] towards +x crosses the edge from [a] to [b]. *)
Definition crosses (x y : R) (a b : Vector) : Prop :=
  (vy a <= y < vy b \/ vy b <= y < vy a) /\
  x < vx a + (y - vy a) * (vx b - vx a) / (vy b - vy a).

Definition xor (P Q : Prop) : Prop := (P /\ ~ Q) \/ (~ P /\ Q).

(** The ray crosses an odd number of the edges of the closed polyline
    that runs through [pts] and back to [first]. *)
Fixpoint odd_crossings (x y : R) (first : Vector) (pts : list Vector) : Prop :=
  match pts with
  | [] => False
  | a :: rest =>
      match rest with
      | [] => crosses x y a first
      | b :: _ => xor (crosses x y a b) (odd_crossings x y first rest)
      end
  end.

(** [(x, y)] lies in the face a wire bounds (even-odd rule). *)
Definition in_face (w : Wire) (x y : R) : Prop :=
  match vertices w with
  | [] => False
  | first :: _ => odd_crossings x y first (vertices w)
  end.

(** The height of the plane a wire lies in. *)
Definition plane_z (w : Wire) : R :=
  match vertices w with
  | [] => 0
  | v :: _ => vz v
  end.

(** The point [p] belongs to the solid [s]. *)
Fixpoint inside (s : Shape) (p : Vector) : Prop :=
  match s with
  | Box pnt l w h =>
      vx pnt <= vx p <= vx pnt + l /\
      vy pnt <= vy p <= vy pnt + w /\
      vz pnt <= vz p <= vz pnt + h
  | Cylinder pnt r h =>
      (vx p - vx pnt) * (vx p - vx pnt) + (vy p - vy pnt) * (vy p - vy pnt)
        <= r * r /\
      vz pnt <= vz p <= vz pnt + h
  | Prism w d =>
      in_face w (vx p) (vy p) /\ plane_z w <= vz p <= plane_z w + d
  | Fuse a b => inside a p \/ inside b p
  | Cut a b => inside a p /\ ~ inside b p
  | ThruCut a w => inside a p /\ ~ in_face w (vx p) (vy p)
  end.

End cq.

(** * Doubles *)

Module float64.





End float64.

(** * NumPy *)

Module np.

(** A two-dimensional array of integers: its shape (rows, columns) and
    its cells in row-major order. *)
Record ndarray : Type := mkarray {
  shape : nat * nat;
  buffer : list Z;
  buffer_size : List.length buffer = (fst shape * snd shape)%nat
}.

Definition item (a : ndarray) (i j : nat) : Z :=
  nth (i * snd (shape a) + j) (buffer a) 0%Z.

(** [np.argwhere(a == 0)]: the indices of the zero cells, row by row. *)
Definition argwhere_eq0 (a : ndarray) : list (nat * nat) :=
  flat_map
    (fun i =>
       map (pair i)
         (filter (fun j => Z.eqb (item a i j) 0) (seq 0 (snd (shape a)))))
    (seq 0 (fst (shape a))).

End np.

(** * The generator interfaces *)

(** [class Frame(ABC)]. *)
Class Frame (F : Type) : Type :=
  Frame_generate : F -> R * R -> R -> result cq.Workplane.

(** [class Connection(ABC)]: a connection is handed the mask array too. *)
Class Connection (C : Type) : Type :=
  Connection_generate :
    C -> np.ndarray -> R * R -> R -> result cq.Workplane.

(** * SimpleFrame *)

Module SimpleFrame.

Record t : Type := new { padding : R }.

Definition generate (self : t) (mask_size : R * R) (depth : R)
    : result cq.Workplane :=
  let width := fst mask_size in
  let height := snd mask_size in
  Ok cq.XY
    >>= cq.box (width + 2 * padding self) (height + 2 * padding self) depth
          (true, true, false) true
    >>= cq.rect width height
    >>= cq.cutThruAll.

End SimpleFrame.

#[export] Instance SimpleFrame_Frame : Frame SimpleFrame.t :=
  SimpleFrame.generate.

(** * CrossConnection *)

Module CrossConnection.

Record t : Type := new { thickness : R; mask_radius : option R }.

Definition generate (self : t) (mask : np.ndarray) (mask_size : R * R)
    (depth : R) : result cq.Workplane :=
  let width := fst mask_size in
  let height := snd mask_size in
  let* model :=
    Ok cq.XY
      >>= cq.box (thickness self) height depth (true, true, false) true
      >>= cq.box width (thickness self) depth (true, true, true) true in
  match mask_radius self with
  | Some radius =>
      let* circle :=
        Ok cq.XY >>= cq.cylinder depth radius (true, true, false) in
      cq.cut circle model
  | None => Ok model
  end.

End CrossConnection.

#[export] Instance CrossConnection_Connection : Connection CrossConnection.t :=
  CrossConnection.generate.

(** * SaltireConnection *)

Module SaltireConnection.

Record t : Type := new { thickness : R; mask_radius : option R }.


Definition generate (self : t) (mask : np.ndarray) (mask_size : R * R)
    (depth : R) : result cq.Workplane :=
  let width := fst mask_size in
  let height := snd mask_size in
  let width2 := width / 2 in
  let height2 := height / 2 in
  let l := thickness self / sqrt 2 in
  let* model :=
    Ok cq.XY
      >>= cq.moveTo (- (width2 - l)) (- height2)
      >>= cq.lineTo (- width2) (- height2)
      >>= cq.lineTo (- width2) (- (height2 - l))
      >>= cq.lineTo (width2 - l) height2
      >>= cq.lineTo width2 height2
      >>= cq.lineTo width2 (height2 - l)
      >>= cq.close
      >>= cq.extrude depth
      >>= cq.moveTo (- (width2 - l)) height2
      >>= cq.lineTo (- width2) height2
      >>= cq.lineTo (- width2) (height2 - l)
      >>= cq.lineTo (width2 - l) (- height2)
      >>= cq.lineTo width2 (- height2)
      >>= cq.lineTo width2 (- (height2 - l))
      >>= cq.close
      >>= cq.extrude depth in
  match mask_radius self with
  | Some radius =>
      let* circle :=
        Ok cq.XY >>= cq.cylinder depth radius (true, true, false) in
      cq.cut circle model
  | None => Ok model
  end.

End SaltireConnection.


(** * MaskModel *)

Module MaskModel.

(** The [mask_size] argument: a tuple or an array of two lengths, in
    metres. *)
Inductive size_arg : Type :=
| size_tuple (a b : R)
| size_array (a b : R).

(** The two lengths the argument holds. *)
Definition lengths (s : size_arg) : R * R :=
  match s with
  | size_tuple a b | size_array a b => (a, b)
  end.

Record t (F C : Type) : Type := mk {
  mask : np.ndarray;
  frame : F;
  connections : C;
  mask_size : R * R;
  depth : R;
  simplify : bool;
  show_axis : bool;
  model : option cq.Workplane
}.

Arguments mk {F C}.
Arguments mask {F C}.
Arguments frame {F C}.
Arguments connections {F C}.
Arguments mask_size {F C}.
Arguments depth {F C}.
Arguments simplify {F C}.
Arguments show_axis {F C}.
Arguments model {F C}.

(** turns mask into 2D point coordinates *)
Definition mask_to_points (mask : np.ndarray) (mask_size px_size : R * R)
    : list (R * R) :=
  map (fun ij : nat * nat =>
         ((INR (fst ij) - INR (fst (np.shape mask)) / 2) * fst px_size,
          (INR (snd ij) - INR (snd (np.shape mask)) / 2) * snd px_size))
      (np.argwhere_eq0 mask).

(** [px_size = self.mask_size / self.mask.shape], element by element. *)
Definition px_size_of (mask_size : R * R) (shape : nat * nat) : R * R :=
  (fst mask_size / INR (fst shape), snd mask_size / INR (snd shape)).

(** The aperture boxes, before any merge. *)
Definition mask_model_of (mask : np.ndarray) (mask_size : R * R) (depth : R)
    : result cq.Workplane :=
  let px_size := px_size_of mask_size (np.shape mask) in
  let points := mask_to_points mask mask_size px_size in
  Ok cq.XY
    >>= cq.pushPoints points
    >>= cq.box (fst px_size) (snd px_size) depth (false, false, false) false.

(** The solids [mask_model] holds before any merge. *)
Definition aperture_boxes (mask : np.ndarray) (mask_size : R * R) (depth : R)
    : list cq.Shape :=
  match mask_model_of mask mask_size depth with
  | Ok wp => cq.solids (cq.objects wp)
  | _ => []
  end.

(** The axis markers of [show_axis]. *)
Definition axis_test : result cq.Workplane :=
  let axis_thickness := 1 / 10 in
  let axis_length := 20 in
  Ok cq.XY
    >>= cq.box axis_thickness axis_thickness axis_length (true, true, true) true
    >>= cq.box axis_thickness axis_length axis_thickness (true, true, true) true
    >>= cq.box axis_length axis_thickness axis_thickness (true, true, true) true.

(** based on provided mask, frame and connection between frame and mask,
    generate a 3d model. *)
Definition _generate_3d_model {F C : Type} `{Frame F} `{Connection C}
    (self : t F C) : result (t F C) :=
  let* frame_model := Frame_generate (frame self) (mask_size self) (depth self) in
  let* connection_model :=
    Connection_generate (connections self) (mask self) (mask_size self)
      (depth self) in
  let* mask_model := mask_model_of (mask self) (mask_size self) (depth self) in
  let* mask_model :=
    if simplify self then cq.combine true mask_model else Ok mask_model in
  let* model :=
    Ok cq.XY
      >>= cq.add frame_model
      >>= cq.add connection_model
      >>= cq.add mask_model in
  let* model :=
    if show_axis self
    then let* axis := axis_test in cq.add axis model
    else Ok model in
  let* model :=
    if simplify self then cq.combine false model else Ok model in
  Ok (mk (mask self) (frame self) (connections self) (mask_size self)
        (depth self) (simplify self) (show_axis self) (Some model)).

(** [MaskModel(mask_array, frame, connection, mask_size, depth, simplify,
    show_axis)]. *)
Definition __init__ {F C : Type} `{Frame F} `{Connection C}
    (mask_array : np.ndarray) (frame : F) (connection : C)
    (mask_size : size_arg) (depth : R) (simplify show_axis : bool)
    : result (t F C) :=
  let mask_size :=
    match mask_size with
    | size_tuple a b => (a * 1000, b * 1000)
    | size_array a b => (a * 1000, b * 1000)
    end in
  _generate_3d_model
    (mk mask_array frame connection mask_size depth simplify show_axis None).

(** ** Saving *)

Section Saving.

(** [cq.exporters.export(model, fname)]: the writer of the CAD file, which
    the repository takes from CadQuery. *)
Variable export : cq.Workplane -> string -> result unit.

(** [save(fname)]. *)
Definition save {F C : Type} (self : t F C) (fname : string) : result unit :=
  match model self with
  | None => Raise (PyExn "AssertionError" "")
  | Some model => export model fname
  end.

End Saving.

(** ** Construction from a mask object *)

(** A [lensless.hardware.mask.Mask], as far as [from_mask] reads it. *)
Record Mask : Type := mkMask { Mask_mask : np.ndarray; sensor_size : size_arg }.

(** A keyword argument's value: a number or a boolean. *)
Inductive pyval : Type :=
| PyFloat (r : R)
| PyBool (b : bool).

(** The value as a number ([True] is 1, [False] is 0). *)
Definition as_float (v : pyval) : R :=
  match v with
  | PyFloat r => r
  | PyBool b => if b then 1 else 0
  end.

(** The value in a condition: a number is true unless it is zero. *)
Definition truthy (v : pyval) : bool :=
  match v with
  | PyFloat r => if Req_dec_T r 0 then false else true
  | PyBool b => b
  end.

(** [**kwargs]: keyword names with their values. *)
Definition kwargs : Type := list (string * pyval).

Fixpoint kwargs_get (k : string) (kw : kwargs) : option pyval :=
  match kw with
  | [] => None
  | (k', v) :: rest => if String.eqb k k' then Some v else kwargs_get k rest
  end.

(** The parameters of [__init__] that [from_mask] leaves to [**kwargs]. *)
Definition open_parameters : list string :=
  ["depth"%string; "simplify"%string; "show_axis"%string].

Definition flag (k : string) (kw : kwargs) : bool :=
  match kwargs_get k kw with
  | Some v => truthy v
  | None => false
  end.

(** [MaskModel.from_mask(mask, frame, connection, **kwargs)].  A keyword
    that [from_mask] passes itself ([mask_array], [frame], [connection],
    [mask_size]) or that [__init__] does not have is a [TypeError], and so
    is a missing [depth]. *)
Definition from_mask {F C : Type} `{Frame F} `{Connection C}
    (mask : Mask) (frame : F) (connection : C) (kw : kwargs)
    : result (t F C) :=
  if forallb (fun kv => existsb (String.eqb (fst kv)) open_parameters) kw
  then
    match kwargs_get "depth" kw with
    | None =>
        Raise (PyExn "TypeError"
                 "__init__() missing 1 required positional argument: 'depth'")
    | Some depth =>
        __init__ (Mask_mask mask) frame connection (sensor_size mask)
          (as_float depth) (flag "simplify" kw) (flag "show_axis" kw)
    end
  else
    Raise (PyExn "TypeError" "__init__() got an unexpected keyword argument").

End MaskModel.

(** * Sample inputs *)

(** A 1x1 mask whose only cell is opaque. *)
Definition opaque_1x1 : np.ndarray := np.mkarray (1, 1)%nat [1%Z] eq_refl.

(** A 2x2 mask, all cells opaque. *)
Definition opaque_2x2 : np.ndarray :=
  np.mkarray (2, 2)%nat [1; 1; 1; 1]%Z eq_refl.

(** A mask of one row and two columns, both cells transparent. *)
Definition clear_1x2 : np.ndarray := np.mkarray (1, 2)%nat [0; 0]%Z eq_refl.

(** A 2x2 mask with a cell valued 2. *)
Definition mask_with_2 : np.ndarray :=
  np.mkarray (2, 2)%nat [0; 2; 1; 0]%Z eq_refl.

(** The 4x4 mask with a single transparent cell at (1, 1). *)
Definition single_4x4 : np.ndarray :=
  np.mkarray (4, 4)%nat [1; 1; 1; 1; 1; 0; 1; 1; 1; 1; 1; 1; 1; 1; 1; 1]%Z
    eq_refl.

(** * Evaluation of call chains *)

Lemma positive_true (x : R) : 0 < x -> cq.positive x = true.
Proof.
  intros Hx. unfold cq.positive. destruct (Rlt_dec 0 x); [reflexivity | lra].
Qed.

Lemma positive_false (x : R) : x <= 0 -> cq.positive x = false.
Proof.
  intros Hx. unfold cq.positive. destruct (Rlt_dec 0 x); [lra | reflexivity].
Qed.

Lemma same_point_false (a b : cq.Vector) : a <> b -> cq.same_point a b = false.
Proof.
  intros Hab. unfold cq.same_point.
  destruct (cq.Vector_eq_dec a b); [contradiction | reflexivity].
Qed.

Lemma same_point_true (a b : cq.Vector) : a = b -> cq.same_point a b = true.
Proof.
  intros Hab. unfold cq.same_point.
  destruct (cq.Vector_eq_dec a b); [reflexivity | contradiction].
Qed.

(** One round of evaluation of a chain of CadQuery calls; arithmetic is
    left as it stands. *)
Ltac cq_step :=
  cbv beta iota zeta delta
    [bind fst snd map app flat_map fold_left last andb orb
     cq.XY cq.box cq.cylinder cq.rect cq.cutThruAll cq.cut cq.pushPoints
     cq.moveTo cq.lineTo cq.close cq.extrude cq.add cq.vals
     cq.makeBox cq.makeCylinder cq.makePolygon cq.has_null_edge
     cq.eachpoint cq.locations cq.locations_of cq.location cq.Center
     cq.combineWithBase cq.newObject cq.findSolid cq.solids cq.findFromPoint
     cq.moved cq.Wire_moved cq.vertices cq.Vadd cq.origin cq.profiles
     cq.vx cq.vy cq.vz
     cq.objects cq.parentSolid cq.firstPoint cq.pendingEdges cq.pendingWires
     SimpleFrame.generate SimpleFrame.padding
     CrossConnection.generate CrossConnection.thickness
     CrossConnection.mask_radius
     SaltireConnection.generate SaltireConnection.thickness
     SaltireConnection.mask_radius].

(** Two points with a different coordinate are different. *)
Ltac points_differ :=
  let E := fresh "E" in
  intros E; injection E; intros;
  first [lra | match goal with H : _ <> _ |- _ => apply H; lra end].

(** Settles the kernel's tests from the hypotheses at hand. *)
Ltac cq_decide :=
  repeat match goal with
         | |- context [cq.positive ?x] => rewrite (positive_true x) by lra
         | |- context [cq.same_point ?a ?b] =>
             rewrite (same_point_false a b) by points_differ
         end.

(** Runs a chain of CadQuery calls. *)
Ltac cq_run := repeat (progress (cq_step; cq_decide)).

(** Closes an equation between two terms that differ in arithmetic only. *)
Ltac same_up_to_arith := repeat (f_equal; try lra).

(** * Faces *)

Lemma crosses_horizontal x y a b :
  cq.vy a = cq.vy b -> cq.crosses x y a b <-> False.
Proof.
  unfold cq.crosses. intros E.
  split; [intros [[H | H] _]; lra | tauto].
Qed.

Lemma crosses_vertical x y a b :
  cq.vx a = cq.vx b ->
  cq.crosses x y a b <->
  (cq.vy a <= y < cq.vy b \/ cq.vy b <= y < cq.vy a) /\ x < cq.vx a.
Proof.
  unfold cq.crosses. intros E. rewrite E.
  replace (cq.vx b + (y - cq.vy a) * (cq.vx b - cq.vx b) / (cq.vy b - cq.vy a))
    with (cq.vx b).
  - tauto.
  - unfold Rminus at 2. rewrite Rplus_opp_r, Rmult_0_r. unfold Rdiv.
    rewrite Rmult_0_l. ring.
Qed.

(** The face of an axis-parallel rectangle, by the even-odd rule. *)
Lemma in_face_rectangle x0 x1 y0 y1 z x y :
  x0 <= x1 -> y0 <= y1 ->
  cq.in_face
    (cq.Polygon [cq.V3 x0 y0 z; cq.V3 x1 y0 z; cq.V3 x1 y1 z; cq.V3 x0 y1 z])
    x y
  <-> x0 <= x < x1 /\ y0 <= y < y1.
Proof.
  intros Hx Hy. unfold cq.in_face, cq.vertices, cq.odd_crossings, cq.xor.
  rewrite (crosses_horizontal x y (cq.V3 x0 y0 z) (cq.V3 x1 y0 z) eq_refl).
  rewrite (crosses_horizontal x y (cq.V3 x1 y1 z) (cq.V3 x0 y1 z) eq_refl).
  rewrite (crosses_vertical x y (cq.V3 x1 y0 z) (cq.V3 x1 y1 z) eq_refl).
  rewrite (crosses_vertical x y (cq.V3 x0 y1 z) (cq.V3 x0 y0 z) eq_refl).
  cbn [cq.vx cq.vy]. lra.
Qed.

Lemma vals_Ok_not_raises (r : result cq.Workplane) (l : list cq.Shape) :
  cq.vals r = Ok l -> ~ raises r.
Proof.
  intros E [e He]. rewrite He in E. discriminate E.
Qed.

Lemma vals_Ok_inv (r : result cq.Workplane) (l : list cq.Shape) :
  cq.vals r = Ok l -> exists wp, r = Ok wp /\ cq.solids (cq.objects wp) = l.
Proof.
  destruct r as [wp | e | ]; cbn [cq.vals bind]; intros E;
    [ | discriminate E | discriminate E].
  exists wp. split; [reflexivity | congruence].
Qed.

(** * SimpleFrame *)

(** What [SimpleFrame.generate] returns when the kernel accepts the outer
    box and the rectangle: the box cut through by the rectangle. *)
Lemma SimpleFrame_generate_vals p w h d :
  0 < w + 2 * p -> 0 < h + 2 * p -> 0 < d -> w <> 0 -> h <> 0 ->
  cq.vals (SimpleFrame.generate (SimpleFrame.new p) (w, h) d) =
  Ok [cq.ThruCut
        (cq.Box (cq.V3 (- ((w + 2 * p) / 2)) (- ((h + 2 * p) / 2)) 0)
           (w + 2 * p) (h + 2 * p) d)
        (cq.Polygon [cq.V3 (- (w / 2)) (- (h / 2)) (d / 2);
                     cq.V3 (w / 2) (- (h / 2)) (d / 2);
                     cq.V3 (w / 2) (h / 2) (d / 2);
                     cq.V3 (- (w / 2)) (h / 2) (d / 2)])].
Proof. intros Hw Hh Hd Hw0 Hh0. cq_run. same_up_to_arith. Qed.

(** Where [SimpleFrame.generate] raises: the outer box is refused, or an
    edge of the rectangle has no length. *)
Lemma SimpleFrame_generate_raises p w h d :
  w + 2 * p <= 0 \/ h + 2 * p <= 0 \/ d <= 0 \/ w = 0 \/ h = 0 ->
  raises (SimpleFrame.generate (SimpleFrame.new p) (w, h) d).
Proof.
  intros Hbad. unfold SimpleFrame.generate, cq.box, cq.makeBox.
  cbn [bind fst snd SimpleFrame.padding].
  destruct (Rlt_dec 0 (w + 2 * p)) as [Hw | Hw];
    [ | rewrite (positive_false (w + 2 * p)) by lra;
        eexists; reflexivity].
  destruct (Rlt_dec 0 (h + 2 * p)) as [Hh | Hh];
    [ | rewrite (positive_true (w + 2 * p)) by lra;
        rewrite (positive_false (h + 2 * p)) by lra;
        eexists; reflexivity].
  destruct (Rlt_dec 0 d) as [Hd | Hd];
    [ | rewrite (positive_true (w + 2 * p)) by lra;
        rewrite (positive_true (h + 2 * p)) by lra;
        rewrite (positive_false d) by lra;
        eexists; reflexivity].
  assert (Hz : w = 0 \/ h = 0) by (destruct Hbad as [? | [? | [? | ?]]]; lra || assumption).
  cq_step. cq_decide.
  destruct Hz as [-> | ->].
  - rewrite (same_point_true (cq.V3 (0 / -2) (h / -2) 0)
               (cq.V3 (0 / 2) (h / -2) 0)) by (f_equal; lra).
    cq_step. eexists. reflexivity.
  - destruct (cq.same_point (cq.V3 (w / -2) (0 / -2) 0)
                (cq.V3 (w / 2) (0 / -2) 0)); cq_step;
      [eexists; reflexivity | ].
    rewrite (same_point_true (cq.V3 (w / 2) (0 / -2) 0)
               (cq.V3 (w / 2) (0 / 2) 0)) by (f_equal; lra).
    cq_step. eexists. reflexivity.
Qed.

(** C3.  For positive width, height and depth, and a padding that leaves
    the outer dimensions positive, [SimpleFrame.generate] returns one
    solid: the box of dimensions (width + 2 padding, height + 2 padding,
    depth), centred in XY and standing on z = 0, cut through by the width
    x height rectangle centred in XY.  No point above or below the open
    width x height rectangle belongs to the solid, at any z; every point
    of the outer box off the closed rectangle does; the solid lies within
    the outer box.  The padding enters the outer box only. *)
Theorem SimpleFrame_generate_box_with_cutout p w h d :
  0 < w -> 0 < h -> 0 < d -> 0 < w + 2 * p -> 0 < h + 2 * p ->
  exists s,
    cq.vals (SimpleFrame.generate (SimpleFrame.new p) (w, h) d) = Ok [s] /\
    s = cq.ThruCut
          (cq.Box (cq.V3 (- ((w + 2 * p) / 2)) (- ((h + 2 * p) / 2)) 0)
             (w + 2 * p) (h + 2 * p) d)
          (cq.Polygon [cq.V3 (- (w / 2)) (- (h / 2)) (d / 2);
                       cq.V3 (w / 2) (- (h / 2)) (d / 2);
                       cq.V3 (w / 2) (h / 2) (d / 2);
                       cq.V3 (- (w / 2)) (h / 2) (d / 2)]) /\
    forall x y z,
      (- (w / 2) < x < w / 2 -> - (h / 2) < y < h / 2 ->
       ~ cq.inside s (cq.V3 x y z)) /\
      (- ((w + 2 * p) / 2) <= x <= (w + 2 * p) / 2 ->
       - ((h + 2 * p) / 2) <= y <= (h + 2 * p) / 2 ->
       0 <= z <= d ->
       x < - (w / 2) \/ w / 2 < x \/ y < - (h / 2) \/ h / 2 < y ->
       cq.inside s (cq.V3 x y z)) /\
      (cq.inside s (cq.V3 x y z) ->
       - ((w + 2 * p) / 2) <= x <= (w + 2 * p) / 2 /\
       - ((h + 2 * p) / 2) <= y <= (h + 2 * p) / 2 /\
       0 <= z <= d).
Proof.
  intros Hw Hh Hd Hwp Hhp. eexists.
  split; [apply SimpleFrame_generate_vals; lra | ].
  split; [reflexivity | ]. intros x y z.
  cbn [cq.inside cq.vx cq.vy cq.vz].
  rewrite in_face_rectangle by lra. lra.
Qed.

Lemma SimpleFrame_generate_box_with_cutout_witness :
  0 < 1 /\ 0 < 1 /\ 0 < 1 / 2 /\ 0 < 1 + 2 * 2 /\
  exists s,
    cq.vals (SimpleFrame.generate (SimpleFrame.new 2) (1, 1) (1 / 2)) = Ok [s] /\
    ~ cq.inside s (cq.V3 0 0 (1 / 4)) /\
    cq.inside s (cq.V3 2 0 (1 / 4)).
Proof.
  split; [lra | ]. split; [lra | ]. split; [lra | ]. split; [lra | ].
  destruct (SimpleFrame_generate_box_with_cutout 2 1 1 (1 / 2))
    as [s [E [_ H]]]; try lra.
  exists s. split; [exact E | ]. split.
  - apply (H 0 0 (1 / 4)); lra.
  - apply (H 2 0 (1 / 4)); lra.
Defined.

(** * CrossConnection *)

Lemma CrossConnection_generate_vals t r mask w h d :
  0 < t -> 0 < w -> 0 < h -> 0 < d ->
  (forall radius, r = Some radius -> 0 < radius) ->
  cq.vals (CrossConnection.generate (CrossConnection.new t r) mask (w, h) d) =
  let strut :=
    cq.Fuse (cq.Box (cq.V3 (- (t / 2)) (- (h / 2)) 0) t h d)
            (cq.Box (cq.V3 (- (w / 2)) (- (t / 2)) 0) w t d) in
  match r with
  | None => Ok [strut]
  | Some radius => Ok [cq.Cut strut (cq.Cylinder (cq.V3 0 0 0) radius d)]
  end.
Proof.
  intros Ht Hw Hh Hd Hr. destruct r as [radius | ].
  - pose proof (Hr radius eq_refl) as Hrad. cq_run. same_up_to_arith.
  - cq_run. same_up_to_arith.
Qed.

(** C4.  For every positive width, height, depth and thickness (and
    positive bore radius, if one is given), [CrossConnection.generate]
    builds the union of the vertical strut, a box thickness x height x
    depth, and the horizontal strut, a box width x thickness x depth, and
    returns it, less the bore if one is given; both struts are centred in
    XY and both span z from 0 to depth, so the union is the plus-sign
    { |x| <= thickness/2, |y| <= height/2 } u
    { |x| <= width/2, |y| <= thickness/2 } over 0 <= z <= depth. *)
Theorem CrossConnection_generate_plus_sign t r mask w h d :
  0 < t -> 0 < w -> 0 < h -> 0 < d ->
  (forall radius, r = Some radius -> 0 < radius) ->
  exists strut,
    strut = cq.Fuse (cq.Box (cq.V3 (- (t / 2)) (- (h / 2)) 0) t h d)
                    (cq.Box (cq.V3 (- (w / 2)) (- (t / 2)) 0) w t d) /\
    cq.vals (CrossConnection.generate (CrossConnection.new t r) mask (w, h) d)
    = Ok [match r with
          | None => strut
          | Some radius =>
              cq.Cut strut (cq.Cylinder (cq.V3 0 0 0) radius d)
          end] /\
    forall x y z,
      cq.inside strut (cq.V3 x y z) <->
      ((- (t / 2) <= x <= t / 2 /\ - (h / 2) <= y <= h / 2) \/
       (- (w / 2) <= x <= w / 2 /\ - (t / 2) <= y <= t / 2)) /\
      0 <= z <= d.
Proof.
  intros Ht Hw Hh Hd Hr. eexists. split; [reflexivity | ]. split.
  - rewrite CrossConnection_generate_vals by assumption.
    destruct r; reflexivity.
  - intros x y z. cbn [cq.inside cq.vx cq.vy cq.vz]. lra.
Qed.

Lemma CrossConnection_generate_plus_sign_witness :
  0 < 1 / 10 /\ 0 < 1 /\ 0 < 1 / 2 /\ 0 < 1 / 4 /\
  exists strut,
    cq.vals
      (CrossConnection.generate (CrossConnection.new (1 / 10) (Some (1 / 4)))
         opaque_1x1 (1, 1) (1 / 2))
    = Ok [cq.Cut strut (cq.Cylinder (cq.V3 0 0 0) (1 / 4) (1 / 2))] /\
    cq.inside strut (cq.V3 (1 / 2) 0 (1 / 4)).
Proof.
  split; [lra | ]. split; [lra | ]. split; [lra | ]. split; [lra | ].
  destruct (CrossConnection_generate_plus_sign (1 / 10) (Some (1 / 4))
              opaque_1x1 1 1 (1 / 2)) as [strut [_ [E H]]]; try lra.
  - intros radius Er. injection Er as <-. lra.
  - exists strut. split; [exact E | ]. apply H. lra.
Defined.

(** * SaltireConnection *)

Lemma sqrt2_pos : 0 < sqrt 2.
Proof. apply sqrt_lt_R0. lra. Qed.



Lemma chamfer_pos t : 0 < t -> 0 < t / sqrt 2.
Proof.
  intros Ht. apply Rmult_lt_0_compat; [lra | ].
  apply Rinv_0_lt_compat, sqrt2_pos.
Qed.


(** ** The chamfer length in doubles *)








(** * The bore *)



(** C10.  Neither connection reads the mask: with the same thickness,
    bore radius, size and depth, two masks give the same result. *)
Theorem connections_ignore_mask
    (c : CrossConnection.t) (s : SaltireConnection.t)
    (mask1 mask2 : np.ndarray) (mask_size : R * R) (depth : R) :
  CrossConnection.generate c mask1 mask_size depth =
  CrossConnection.generate c mask2 mask_size depth /\
  SaltireConnection.generate s mask1 mask_size depth =
  SaltireConnection.generate s mask2 mask_size depth.
Proof. split; reflexivity. Qed.

(** * Inputs the generators do not check *)





(** C8, as stated, fails: width -1 with padding 2 is not rejected. *)
Lemma SimpleFrame_negative_width_accepted :
  ~ (forall p w h d,
       w <= 0 \/ h <= 0 \/ d <= 0 ->
       raises (SimpleFrame.generate (SimpleFrame.new p) (w, h) d)).
Proof.
  intros H.
  refine (vals_Ok_not_raises _ _
            (SimpleFrame_generate_vals 2 (-1) 1 1 _ _ _ _ _) (H _ _ _ _ _));
    lra.
Qed.

(** C8, amended.  [SimpleFrame.generate] has no check of its own; what is
    refused is what the geometry kernel refuses.  It raises when the
    depth is non-positive, when the width or the height is zero, and when
    an outer dimension width + 2 padding or height + 2 padding is
    non-positive.  With a positive depth, positive outer dimensions and a
    non-zero width and height, a negative width or height included, it
    raises nothing and returns the outer box cut through by the width x
    height rectangle centred in XY. *)
Theorem SimpleFrame_generate_unchecked p w h d :
  (d <= 0 \/ w = 0 \/ h = 0 \/ w + 2 * p <= 0 \/ h + 2 * p <= 0 ->
   raises (SimpleFrame.generate (SimpleFrame.new p) (w, h) d)) /\
  (0 < d -> w <> 0 -> h <> 0 -> 0 < w + 2 * p -> 0 < h + 2 * p ->
   ~ raises (SimpleFrame.generate (SimpleFrame.new p) (w, h) d) /\
   cq.vals (SimpleFrame.generate (SimpleFrame.new p) (w, h) d) =
   Ok [cq.ThruCut
         (cq.Box (cq.V3 (- ((w + 2 * p) / 2)) (- ((h + 2 * p) / 2)) 0)
            (w + 2 * p) (h + 2 * p) d)
         (cq.Polygon [cq.V3 (- (w / 2)) (- (h / 2)) (d / 2);
                      cq.V3 (w / 2) (- (h / 2)) (d / 2);
                      cq.V3 (w / 2) (h / 2) (d / 2);
                      cq.V3 (- (w / 2)) (h / 2) (d / 2)])]).
Proof.
  split.
  - intros Hbad. apply SimpleFrame_generate_raises. tauto.
  - intros Hd Hw Hh Hwp Hhp.
    pose proof (SimpleFrame_generate_vals p w h d Hwp Hhp Hd Hw Hh) as E.
    split; [exact (vals_Ok_not_raises _ _ E) | exact E].
Qed.

Lemma SimpleFrame_generate_unchecked_witness :
  raises (SimpleFrame.generate (SimpleFrame.new 2) (0, 1) 1) /\
  raises (SimpleFrame.generate (SimpleFrame.new 2) (1, 1) 0) /\
  ~ raises (SimpleFrame.generate (SimpleFrame.new 2) (-1, 1) 1).
Proof.
  split; [ | split].
  - apply (SimpleFrame_generate_unchecked 2 0 1 1). lra.
  - apply (SimpleFrame_generate_unchecked 2 1 1 0). lra.
  - apply (SimpleFrame_generate_unchecked 2 (-1) 1 1); lra.
Defined.

(** At [l] = width = height the third and the fourth vertex of the first
    profile coincide, and the kernel refuses the edge between them. *)
Lemma SaltireConnection_coinciding_vertices t r mask d :
  0 < t ->
  raises_class "StdFail_NotDone"
    (SaltireConnection.generate (SaltireConnection.new t r) mask
       (t / sqrt 2, t / sqrt 2) d).
Proof.
  intros Ht. pose proof (chamfer_pos t Ht) as Hl.
  unfold SaltireConnection.generate.
  cbn [fst snd SaltireConnection.thickness SaltireConnection.mask_radius].
  set (l := t / sqrt 2) in *.
  cq_run.
  match goal with
  | |- context [cq.same_point ?a ?b] =>
      rewrite (same_point_true a b) by (f_equal; lra)
  end.
  cq_run. eexists. split; reflexivity.
Qed.
(** * NumPy: the zero cells *)

Lemma argwhere_eq0_In (a : np.ndarray) (i j : nat) :
  In (i, j) (np.argwhere_eq0 a) <->
  (i < fst (np.shape a))%nat /\ (j < snd (np.shape a))%nat /\
  np.item a i j = 0%Z.
Proof.
  unfold np.argwhere_eq0. rewrite in_flat_map. split.
  - intros [i' [Hi Hin]]. apply in_map_iff in Hin.
    destruct Hin as [j' [E Hj]]. injection E as -> ->.
    apply filter_In in Hj. destruct Hj as [Hj Hz].
    apply in_seq in Hi. apply in_seq in Hj. apply Z.eqb_eq in Hz.
    repeat split; (lia || assumption).
  - intros [Hi [Hj Hz]]. exists i. split.
    + apply in_seq. lia.
    + apply in_map. apply filter_In. split.
      * apply in_seq. lia.
      * apply Z.eqb_eq. exact Hz.
Qed.

Lemma flat_map_length_const {A B : Type} (f : A -> list B) (n : nat)
    (l : list A) :
  (forall x, In x l -> List.length (f x) = n) ->
  List.length (flat_map f l) = (List.length l * n)%nat.
Proof.
  induction l as [ | x l IH]; intros Hf; [reflexivity | ].
  cbn [flat_map]. rewrite length_app, Hf by (left; reflexivity).
  rewrite IH by (intros y Hy; apply Hf; right; exact Hy). reflexivity.
Qed.

Lemma filter_all {A : Type} (f : A -> bool) (l : list A) :
  (forall x, In x l -> f x = true) -> filter f l = l.
Proof.
  induction l as [ | x l IH]; intros Hf; [reflexivity | ].
  cbn [filter]. rewrite Hf by (left; reflexivity).
  rewrite IH by (intros y Hy; apply Hf; right; exact Hy). reflexivity.
Qed.

(** A mask with all cells zero has one index per cell. *)
Lemma argwhere_eq0_all_zero (a : np.ndarray) :
  (forall i j, (i < fst (np.shape a))%nat -> (j < snd (np.shape a))%nat ->
               np.item a i j = 0%Z) ->
  List.length (np.argwhere_eq0 a) = (fst (np.shape a) * snd (np.shape a))%nat.
Proof.
  intros Hz. unfold np.argwhere_eq0.
  rewrite (flat_map_length_const _ (snd (np.shape a))).
  - rewrite length_seq. reflexivity.
  - intros i Hi. apply in_seq in Hi. rewrite length_map, filter_all.
    + apply length_seq.
    + intros j Hj. apply in_seq in Hj. apply Z.eqb_eq. apply Hz; lia.
Qed.

(** A mask without a zero cell has no index. *)
Lemma argwhere_eq0_no_zero (a : np.ndarray) :
  (forall i j, (i < fst (np.shape a))%nat -> (j < snd (np.shape a))%nat ->
               np.item a i j <> 0%Z) ->
  np.argwhere_eq0 a = [].
Proof.
  intros Hz. destruct (np.argwhere_eq0 a) as [ | [i j] l] eqn:E;
    [reflexivity | ].
  assert (Hin : In (i, j) (np.argwhere_eq0 a)) by (rewrite E; left; reflexivity).
  apply argwhere_eq0_In in Hin. destruct Hin as [Hi [Hj H0]].
  exfalso. exact (Hz i j Hi Hj H0).
Qed.

(** * The aperture boxes *)

Lemma locations_of_vectors (vs : list cq.Vector) :
  cq.locations_of (map cq.OVector vs) = Some vs.
Proof.
  induction vs as [ | v vs IH]; [reflexivity | ].
  cbn [map cq.locations_of cq.location]. rewrite IH. reflexivity.
Qed.

Lemma solids_map_OShape (l : list cq.Shape) : cq.solids (map cq.OShape l) = l.
Proof.
  induction l as [ | s l IH]; [reflexivity | ].
  cbn [map]. unfold cq.solids in *. cbn [flat_map app]. rewrite IH.
  reflexivity.
Qed.

Lemma solids_map_OVector (l : list cq.Vector) :
  cq.solids (map cq.OVector l) = [].
Proof.
  induction l as [ | v l IH]; [reflexivity | ].
  cbn [map]. unfold cq.solids in *. cbn [flat_map app]. exact IH.
Qed.

(** A box per point of the stack, and one at the origin when the stack
    is empty, when the kernel accepts the three dimensions. *)
Lemma box_on_points (pts : list cq.Vector) (l w h : R) :
  0 < l -> 0 < w -> 0 < h ->
  cq.box l w h (false, false, false) false
    (cq.newObject cq.XY (map cq.OVector pts)) =
  Ok (cq.mkWorkplane
        (map cq.OShape
           (map (fun loc => cq.moved loc (cq.Box (cq.V3 0 0 0) l w h))
              (match pts with [] => [cq.origin] | _ => pts end)))
        None None [] []).
Proof.
  intros Hl Hw Hh.
  unfold cq.box, cq.makeBox.
  rewrite !positive_true by assumption. cbn [andb bind].
  unfold cq.eachpoint, cq.locations.
  cbn [cq.newObject cq.objects].
  destruct pts as [ | v vs]; [reflexivity | ].
  cbn [map].
  change (cq.OVector v :: map cq.OVector vs) with (map cq.OVector (v :: vs)).
  rewrite locations_of_vectors.
  unfold cq.newObject, cq.findSolid. cbn [cq.objects cq.parentSolid].
  rewrite solids_map_OVector. reflexivity.
Qed.

(** The kernel refuses a box with a dimension that is not positive,
    whatever is on the stack. *)
Lemma box_refused (l w h : R) (centered : bool * bool * bool)
    (combine : bool) (wp : cq.Workplane) :
  l <= 0 \/ w <= 0 \/ h <= 0 ->
  cq.box l w h centered combine wp = Raise cq.domain_error.
Proof.
  intros Hbad. destruct centered as [[cx cy] cz].
  unfold cq.box, cq.makeBox.
  destruct Hbad as [Hbad | [Hbad | Hbad]];
    rewrite (positive_false _ Hbad);
    rewrite ?andb_false_r; reflexivity.
Qed.

(** The pixel size is positive when the size is and the mask has a row
    and a column. *)
Lemma quotient_pos (a : R) (n : nat) : 0 < a -> (0 < n)%nat -> 0 < a / INR n.
Proof.
  intros Ha Hn. apply lt_0_INR in Hn.
  apply Rmult_lt_0_compat; [exact Ha | apply Rinv_0_lt_compat; exact Hn].
Qed.


(** A zero cell needs a row and a column. *)
Lemma argwhere_eq0_shape (a : np.ndarray) :
  np.argwhere_eq0 a <> [] ->
  (0 < fst (np.shape a))%nat /\ (0 < snd (np.shape a))%nat.
Proof.
  intros Hne. destruct (np.argwhere_eq0 a) as [ | [i j] l] eqn:E;
    [contradiction | ].
  assert (Hin : In (i, j) (np.argwhere_eq0 a)) by (rewrite E; left; reflexivity).
  apply argwhere_eq0_In in Hin. lia.
Qed.

(** [mask_model] comes back when the pixel size and the depth are
    positive, with nothing but solids on its stack. *)
Lemma mask_model_of_Ok mask mask_size depth :
  0 < fst mask_size / INR (fst (np.shape mask)) ->
  0 < snd mask_size / INR (snd (np.shape mask)) ->
  0 < depth ->
  MaskModel.mask_model_of mask mask_size depth =
  Ok (cq.mkWorkplane
        (map cq.OShape (MaskModel.aperture_boxes mask mask_size depth))
        None None [] []).
Proof.
  intros Hx Hy Hd.
  unfold MaskModel.aperture_boxes, MaskModel.mask_model_of, cq.pushPoints.
  cbn [bind].
  rewrite <- (map_map (fun p => cq.V3 (fst p) (snd p) 0) cq.OVector).
  unfold MaskModel.px_size_of at 2 3 5 6. cbn [fst snd].
  rewrite box_on_points by assumption. cbn [cq.objects].
  rewrite solids_map_OShape. reflexivity.
Qed.

(** Otherwise the kernel refuses the box, and there is no [mask_model]. *)
Lemma mask_model_of_refused mask mask_size depth :
  fst mask_size / INR (fst (np.shape mask)) <= 0 \/
  snd mask_size / INR (snd (np.shape mask)) <= 0 \/
  depth <= 0 ->
  MaskModel.mask_model_of mask mask_size depth = Raise cq.domain_error.
Proof.
  intros Hbad.
  unfold MaskModel.mask_model_of, cq.pushPoints. cbn [bind].
  apply box_refused. exact Hbad.
Qed.

Lemma aperture_boxes_refused mask mask_size depth :
  fst mask_size / INR (fst (np.shape mask)) <= 0 \/
  snd mask_size / INR (snd (np.shape mask)) <= 0 \/
  depth <= 0 ->
  MaskModel.aperture_boxes mask mask_size depth = [].
Proof.
  intros Hbad. unfold MaskModel.aperture_boxes.
  rewrite (mask_model_of_refused _ _ _ Hbad). reflexivity.
Qed.

(** Either the kernel accepts the box, or there are no aperture boxes. *)
Lemma aperture_boxes_cases mask mask_size depth :
  (0 < fst mask_size / INR (fst (np.shape mask)) /\
   0 < snd mask_size / INR (snd (np.shape mask)) /\
   0 < depth) \/
  MaskModel.aperture_boxes mask mask_size depth = [].
Proof.
  destruct (Rlt_le_dec 0 (fst mask_size / INR (fst (np.shape mask))))
    as [Hx | Hx]; [ | right; apply aperture_boxes_refused; tauto].
  destruct (Rlt_le_dec 0 (snd mask_size / INR (snd (np.shape mask))))
    as [Hy | Hy]; [ | right; apply aperture_boxes_refused; tauto].
  destruct (Rlt_le_dec 0 depth)
    as [Hd | Hd]; [ | right; apply aperture_boxes_refused; tauto].
  left. tauto.
Qed.

(** The boxes, cell by cell: with at least one zero cell there is one box
    per zero cell, of the pixel size and the depth, its minimum corner at
    ((row - H/2) * px, (column - W/2) * py, 0). *)
Lemma aperture_boxes_cells mask mask_size depth :
  0 < fst mask_size / INR (fst (np.shape mask)) ->
  0 < snd mask_size / INR (snd (np.shape mask)) ->
  0 < depth ->
  np.argwhere_eq0 mask <> [] ->
  MaskModel.aperture_boxes mask mask_size depth =
  map (fun ij : nat * nat =>
         cq.Box
           (cq.V3
              ((INR (fst ij) - INR (fst (np.shape mask)) / 2)
               * (fst mask_size / INR (fst (np.shape mask))))
              ((INR (snd ij) - INR (snd (np.shape mask)) / 2)
               * (snd mask_size / INR (snd (np.shape mask))))
              0)
           (fst mask_size / INR (fst (np.shape mask)))
           (snd mask_size / INR (snd (np.shape mask)))
           depth)
      (np.argwhere_eq0 mask).
Proof.
  intros Hx Hy Hd Hne.
  unfold MaskModel.aperture_boxes, MaskModel.mask_model_of, cq.pushPoints.
  cbn [bind].
  rewrite <- (map_map (fun p => cq.V3 (fst p) (snd p) 0) cq.OVector).
  unfold MaskModel.px_size_of at 2 3. cbn [fst snd].
  rewrite box_on_points by assumption. cbn [cq.objects].
  rewrite solids_map_OShape.
  unfold MaskModel.mask_to_points, MaskModel.px_size_of.
  destruct (np.argwhere_eq0 mask) as [ | c cs]; [contradiction | ].
  rewrite !map_map.
  match goal with
  | |- map ?f match map ?g ?l with [] => _ | _ :: _ => map ?g ?l end = _ =>
      change (map f (map g l) = map
        (fun ij : nat * nat =>
         cq.Box
           (cq.V3
              ((INR (fst ij) - INR (fst (np.shape mask)) / 2)
               * (fst mask_size / INR (fst (np.shape mask))))
              ((INR (snd ij) - INR (snd (np.shape mask)) / 2)
               * (snd mask_size / INR (snd (np.shape mask))))
              0)
           (fst mask_size / INR (fst (np.shape mask)))
           (snd mask_size / INR (snd (np.shape mask)))
           depth) l)
  end.
  rewrite map_map. apply map_ext. intros [i j].
  cbn [cq.moved fst snd]. unfold cq.Vadd. cbn [cq.vx cq.vy cq.vz].
  repeat (f_equal; try ring).
Qed.

(** Without a zero cell there is still one box, at the origin. *)
Lemma aperture_boxes_no_cell mask mask_size depth :
  0 < fst mask_size / INR (fst (np.shape mask)) ->
  0 < snd mask_size / INR (snd (np.shape mask)) ->
  0 < depth ->
  np.argwhere_eq0 mask = [] ->
  MaskModel.aperture_boxes mask mask_size depth =
  [cq.Box (cq.V3 0 0 0)
     (fst mask_size / INR (fst (np.shape mask)))
     (snd mask_size / INR (snd (np.shape mask)))
     depth].
Proof.
  intros Hx Hy Hd E.
  unfold MaskModel.aperture_boxes, MaskModel.mask_model_of, cq.pushPoints.
  cbn [bind].
  rewrite <- (map_map (fun p => cq.V3 (fst p) (snd p) 0) cq.OVector).
  unfold MaskModel.px_size_of at 2 3. cbn [fst snd].
  rewrite box_on_points by assumption. cbn [cq.objects].
  rewrite solids_map_OShape.
  unfold MaskModel.mask_to_points, MaskModel.px_size_of. rewrite E.
  cbn [map cq.moved fst snd]. unfold cq.Vadd, cq.origin.
  cbn [cq.vx cq.vy cq.vz].
  repeat (f_equal; try ring).
Qed.

(** Every aperture box has the pixel size and the depth. *)
Lemma aperture_boxes_size mask mask_size depth box :
  In box (MaskModel.aperture_boxes mask mask_size depth) ->
  exists pnt,
    box = cq.Box pnt (fst mask_size / INR (fst (np.shape mask)))
            (snd mask_size / INR (snd (np.shape mask))) depth.
Proof.
  destruct (aperture_boxes_cases mask mask_size depth) as [[Hx [Hy Hd]] | ->];
    [ | intros []].
  destruct (np.argwhere_eq0 mask) as [ | c cs] eqn:E.
  - rewrite (aperture_boxes_no_cell _ _ _ Hx Hy Hd E). intros [<- | []].
    eexists. reflexivity.
  - rewrite aperture_boxes_cells by (assumption || (rewrite E; discriminate)).
    intros Hin. apply in_map_iff in Hin. destruct Hin as [ij [<- _]].
    eexists. reflexivity.
Qed.

Lemma aperture_boxes_nonempty mask mask_size depth :
  0 < fst mask_size / INR (fst (np.shape mask)) ->
  0 < snd mask_size / INR (snd (np.shape mask)) ->
  0 < depth ->
  MaskModel.aperture_boxes mask mask_size depth <> [].
Proof.
  intros Hx Hy Hd.
  destruct (np.argwhere_eq0 mask) as [ | c cs] eqn:E.
  - rewrite (aperture_boxes_no_cell _ _ _ Hx Hy Hd E). discriminate.
  - rewrite aperture_boxes_cells by (assumption || (rewrite E; discriminate)).
    rewrite E. discriminate.
Qed.

(** An all-transparent H x W mask, H W > 0, gives H W boxes. *)
Lemma aperture_boxes_all_transparent mask mask_size depth :
  0 < fst mask_size -> 0 < snd mask_size -> 0 < depth ->
  (0 < fst (np.shape mask) * snd (np.shape mask))%nat ->
  (forall i j, (i < fst (np.shape mask))%nat -> (j < snd (np.shape mask))%nat ->
               np.item mask i j = 0%Z) ->
  List.length (MaskModel.aperture_boxes mask mask_size depth) =
  (fst (np.shape mask) * snd (np.shape mask))%nat.
Proof.
  intros Ha Hb Hd Hpos Hz. pose proof (argwhere_eq0_all_zero mask Hz) as Hlen.
  rewrite aperture_boxes_cells.
  - rewrite length_map. exact Hlen.
  - apply quotient_pos; [exact Ha | nia].
  - apply quotient_pos; [exact Hb | nia].
  - exact Hd.
  - intros E. rewrite E in Hlen. cbn [List.length] in Hlen. lia.
Qed.

(** The 4 x 4 mask with one transparent cell at (1, 1), 1 mm x 1 mm,
    depth 0.5 mm: one box 0.25 x 0.25 x 0.5 at (-0.25, -0.25, 0). *)
Example aperture_boxes_single_4x4 :
  MaskModel.aperture_boxes single_4x4 (1, 1) (1 / 2) =
  [cq.Box (cq.V3 (- (1 / 4)) (- (1 / 4)) 0) (1 / 4) (1 / 4) (1 / 2)].
Proof.
  rewrite aperture_boxes_cells;
    [ | cbn [fst snd np.shape single_4x4 INR]; lra ..
      | discriminate].
  change (np.argwhere_eq0 single_4x4) with [(1, 1)%nat].
  cbn [map fst snd np.shape single_4x4 INR].
  same_up_to_arith.
Qed.

(** * Construction *)

(** The pixel size in millimetres is positive when the size is and the
    mask has a row and a column. *)
Lemma pixel_pos (sz : MaskModel.size_arg) (mask : np.ndarray) :
  0 < fst (MaskModel.lengths sz) -> 0 < snd (MaskModel.lengths sz) ->
  (0 < fst (np.shape mask))%nat -> (0 < snd (np.shape mask))%nat ->
  0 < fst (fst (MaskModel.lengths sz) * 1000, snd (MaskModel.lengths sz) * 1000)
      / INR (fst (np.shape mask)) /\
  0 < snd (fst (MaskModel.lengths sz) * 1000, snd (MaskModel.lengths sz) * 1000)
      / INR (snd (np.shape mask)).
Proof.
  intros Ha Hb HH HW. cbn [fst snd].
  split; apply quotient_pos; (lra || assumption).
Qed.

(** With both flags off, construction returns as soon as the two
    generators do and the kernel accepts the aperture box, and the stack
    of the model is their solids followed by the aperture boxes. *)
Lemma MaskModel_init_default {F C : Type} `{Frame F} `{Connection C}
    (mask : np.ndarray) (frame : F) (connection : C)
    (sz : MaskModel.size_arg) (depth : R) (fm cm : cq.Workplane) :
  let mask_size :=
    (fst (MaskModel.lengths sz) * 1000, snd (MaskModel.lengths sz) * 1000) in
  0 < fst (MaskModel.lengths sz) -> 0 < snd (MaskModel.lengths sz) ->
  0 < depth ->
  (0 < fst (np.shape mask))%nat -> (0 < snd (np.shape mask))%nat ->
  Frame_generate frame mask_size depth = Ok fm ->
  Connection_generate connection mask mask_size depth = Ok cm ->
  MaskModel.__init__ mask frame connection sz depth false false =
  Ok (MaskModel.mk mask frame connection mask_size depth false false
        (Some (cq.mkWorkplane
                 (cq.objects fm ++ cq.objects cm ++
                  map cq.OShape
                    (MaskModel.aperture_boxes mask mask_size depth))
                 None None [] []))).
Proof.
  intros mask_size Ha Hb Hd HH HW Hf Hc.
  destruct (pixel_pos sz mask Ha Hb HH HW) as [Hx Hy]. fold mask_size in Hx, Hy.
  unfold MaskModel.__init__, MaskModel._generate_3d_model.
  replace (match sz with
           | MaskModel.size_tuple a b | MaskModel.size_array a b =>
               (a * 1000, b * 1000)
           end) with mask_size by (destruct sz; reflexivity).
  cbn [MaskModel.frame MaskModel.connections MaskModel.mask
       MaskModel.mask_size MaskModel.depth MaskModel.simplify
       MaskModel.show_axis].
  rewrite Hf, Hc, mask_model_of_Ok by assumption.
  cbn [bind cq.add cq.XY cq.objects cq.parentSolid cq.firstPoint
       cq.pendingEdges cq.pendingWires app].
  rewrite <- app_assoc. reflexivity.
Qed.

Lemma solids_app (a b : list cq.Obj) :
  cq.solids (a ++ b) = cq.solids a ++ cq.solids b.
Proof. unfold cq.solids. apply flat_map_app. Qed.

(** The solids of a model built with both flags off. *)
Lemma MaskModel_init_solids {F C : Type} `{Frame F} `{Connection C}
    (mask : np.ndarray) (frame : F) (connection : C)
    (sz : MaskModel.size_arg) (depth : R) (fm cm : cq.Workplane) :
  let mask_size :=
    (fst (MaskModel.lengths sz) * 1000, snd (MaskModel.lengths sz) * 1000) in
  0 < fst (MaskModel.lengths sz) -> 0 < snd (MaskModel.lengths sz) ->
  0 < depth ->
  (0 < fst (np.shape mask))%nat -> (0 < snd (np.shape mask))%nat ->
  Frame_generate frame mask_size depth = Ok fm ->
  Connection_generate connection mask mask_size depth = Ok cm ->
  exists m wp,
    MaskModel.__init__ mask frame connection sz depth false false = Ok m /\
    MaskModel.model m = Some wp /\
    cq.solids (cq.objects wp) =
      cq.solids (cq.objects fm) ++ cq.solids (cq.objects cm) ++
      MaskModel.aperture_boxes mask mask_size depth.
Proof.
  intros mask_size Ha Hb Hd HH HW Hf Hc. do 2 eexists.
  split; [exact (MaskModel_init_default mask frame connection sz depth fm cm
                   Ha Hb Hd HH HW Hf Hc) | ].
  cbn [MaskModel.model]. split; [reflexivity | ].
  cbn [cq.objects]. rewrite !solids_app, solids_map_OShape. reflexivity.
Qed.

(** What a finished construction stores, whatever the flags. *)
Lemma MaskModel_init_fields {F C : Type} `{Frame F} `{Connection C}
    (mask : np.ndarray) (frame : F) (connection : C)
    (sz : MaskModel.size_arg) (depth : R) (simplify show_axis : bool)
    (m : MaskModel.t F C) :
  MaskModel.__init__ mask frame connection sz depth simplify show_axis = Ok m ->
  MaskModel.mask m = mask /\
  MaskModel.mask_size m =
    (fst (MaskModel.lengths sz) * 1000, snd (MaskModel.lengths sz) * 1000) /\
  MaskModel.depth m = depth.
Proof.
  unfold MaskModel.__init__, MaskModel._generate_3d_model.
  cbn [MaskModel.frame MaskModel.connections MaskModel.mask
       MaskModel.mask_size MaskModel.depth MaskModel.simplify
       MaskModel.show_axis].
  repeat match goal with
         | |- bind ?r _ = Ok _ -> _ =>
             destruct r; cbn [bind]; try (intros E; discriminate E)
         end.
  intros E. injection E as <-.
  cbn [MaskModel.mask MaskModel.mask_size MaskModel.depth].
  destruct sz; repeat split; reflexivity.
Qed.

(** * The flags *)

(** The axis markers: three boxes about the origin, fused into the one
    solid of the stack. *)
Lemma axis_test_objects :
  exists axis_wp,
    MaskModel.axis_test = Ok axis_wp /\
    cq.objects axis_wp =
    [cq.OShape
       (cq.Fuse
          (cq.Fuse
             (cq.Box (cq.V3 (- (1 / 20)) (- (1 / 20)) (- 10))
                (1 / 10) (1 / 10) 20)
             (cq.Box (cq.V3 (- (1 / 20)) (- 10) (- (1 / 20)))
                (1 / 10) 20 (1 / 10)))
          (cq.Box (cq.V3 (- 10) (- (1 / 20)) (- (1 / 20)))
             20 (1 / 10) (1 / 10)))].
Proof.
  unfold MaskModel.axis_test. cq_run.
  match goal with
  | |- context [cq.Vector_eq_dec ?a ?b] =>
      destruct (cq.Vector_eq_dec a b) as [E | N];
        [ | exfalso; apply N; same_up_to_arith]
  end.
  cq_run. eexists. split; [reflexivity | ].
  cbn [cq.objects]. same_up_to_arith.
Qed.

(** The points of a fused stack are the points of its solids. *)
Lemma inside_fold_left_Fuse (l : list cq.Shape) (s : cq.Shape) (p : cq.Vector) :
  cq.inside (fold_left cq.Fuse l s) p <->
  exists t, In t (s :: l) /\ cq.inside t p.
Proof.
  revert s. induction l as [ | a l IH]; intros s; cbn [fold_left].
  - split.
    + intros H. exists s. split; [left; reflexivity | exact H].
    + intros [t [[<- | []] H]]. exact H.
  - rewrite IH. cbn [cq.inside]. split.
    + intros [t [[<- | Hin] H]].
      * cbn [cq.inside] in H. destruct H as [H | H].
        -- exists s. split; [left; reflexivity | exact H].
        -- exists a. split; [right; left; reflexivity | exact H].
      * exists t. split; [right; right; exact Hin | exact H].
    + intros [t [[<- | [<- | Hin]] H]].
      * exists (cq.Fuse s a). split; [left; reflexivity | left; exact H].
      * exists (cq.Fuse s a). split; [left; reflexivity | right; exact H].
      * exists t. split; [right; exact Hin | exact H].
Qed.

Lemma is_solid_map_OShape (l : list cq.Shape) :
  forallb cq.is_solid (map cq.OShape l) = true.
Proof. induction l as [ | s l IH]; [reflexivity | exact IH]. Qed.

Lemma Forall_is_solid (l : list cq.Obj) :
  Forall (fun o => exists s, o = cq.OShape s) l ->
  forallb cq.is_solid l = true.
Proof.
  induction 1 as [ | o l [s ->] _ IH]; [reflexivity | exact IH].
Qed.

(** [combine] on a stack of solids: one solid, the fusion of them all. *)
Lemma combine_solids (glue : bool) (wp : cq.Workplane) (s : cq.Shape)
    (items : list cq.Shape) :
  forallb cq.is_solid (cq.objects wp) = true ->
  cq.solids (cq.objects wp) = s :: items ->
  exists wp',
    cq.combine glue wp = Ok wp' /\
    cq.objects wp' = [cq.OShape (fold_left cq.Fuse items s)].
Proof.
  intros Hall E. unfold cq.combine. rewrite Hall, E.
  destruct (cq.objects wp) as [ | o objs]; [discriminate E | ].
  eexists. split; reflexivity.
Qed.

(** What [combine] returns, when it returns, is one solid. *)
Lemma combine_Ok_inv (glue : bool) (wp wp' : cq.Workplane) :
  cq.combine glue wp = Ok wp' ->
  exists s, cq.objects wp' = [cq.OShape s].
Proof.
  unfold cq.combine. destruct (cq.objects wp) as [ | o objs];
    [intros E; discriminate E | ].
  destruct (forallb cq.is_solid (o :: objs)); [ | intros E; discriminate E].
  destruct (cq.solids (o :: objs)) as [ | s items];
    [intros E; discriminate E | ].
  intros E. injection E as <-. eexists. reflexivity.
Qed.

(** The model under every setting of the flags: its solids are those of
    the frame, of the connection, the aperture boxes and, on request, the
    axis markers, either one by one or, when the generators left nothing
    but solids, fused into one. *)
Lemma MaskModel_init_stack {F C : Type} `{Frame F} `{Connection C}
    (mask : np.ndarray) (frame : F) (connection : C)
    (sz : MaskModel.size_arg) (depth : R) (fm cm : cq.Workplane) :
  let mask_size :=
    (fst (MaskModel.lengths sz) * 1000, snd (MaskModel.lengths sz) * 1000) in
  0 < fst (MaskModel.lengths sz) -> 0 < snd (MaskModel.lengths sz) ->
  0 < depth ->
  (0 < fst (np.shape mask))%nat -> (0 < snd (np.shape mask))%nat ->
  Frame_generate frame mask_size depth = Ok fm ->
  Connection_generate connection mask mask_size depth = Ok cm ->
  exists axis,
    cq.vals MaskModel.axis_test = Ok [axis] /\
    forall simplify show_axis,
    (simplify = true ->
     Forall (fun o => exists s, o = cq.OShape s)
       (cq.objects fm ++ cq.objects cm)) ->
    exists m wp,
      MaskModel.__init__ mask frame connection sz depth simplify show_axis
      = Ok m /\
      MaskModel.model m = Some wp /\
      let parts :=
        cq.solids (cq.objects fm) ++ cq.solids (cq.objects cm) ++
        MaskModel.aperture_boxes mask mask_size depth ++
        (if show_axis then [axis] else []) in
      if simplify
      then exists s,
             cq.objects wp = [cq.OShape s] /\
             forall p, cq.inside s p <-> exists t, In t parts /\ cq.inside t p
      else cq.solids (cq.objects wp) = parts.
Proof.
  intros mask_size Hsa Hsb Hd HH HW Hf Hc.
  destruct (pixel_pos sz mask Hsa Hsb HH HW) as [Hx Hy].
  fold mask_size in Hx, Hy.
  destruct axis_test_objects as [axis_wp [Ha Hao]].
  assert (Has : cq.solids (cq.objects axis_wp) = _)
    by (rewrite Hao; reflexivity).
  eexists. split; [rewrite Ha; cbn [cq.vals bind]; rewrite Has; reflexivity | ].
  intros simplify show_axis Hsolid.
  unfold MaskModel.__init__, MaskModel._generate_3d_model.
  replace (match sz with
           | MaskModel.size_tuple a b | MaskModel.size_array a b =>
               (a * 1000, b * 1000)
           end) with mask_size by (destruct sz; reflexivity).
  cbn [MaskModel.frame MaskModel.connections MaskModel.mask
       MaskModel.mask_size MaskModel.depth MaskModel.simplify
       MaskModel.show_axis].
  rewrite Hf, Hc, mask_model_of_Ok by assumption. cbn [bind].
  pose proof (aperture_boxes_nonempty mask mask_size depth Hx Hy Hd) as Hne.
  set (boxes := MaskModel.aperture_boxes mask mask_size depth) in *.
  destruct simplify.
  - (* the boxes are fused first *)
    pose proof (Forall_is_solid _ (Hsolid eq_refl)) as Hgen.
    destruct boxes as [ | b bs] eqn:Eb; [contradiction | ].
    destruct (combine_solids true
                (cq.mkWorkplane (map cq.OShape (b :: bs)) None None [] [])
                b bs (is_solid_map_OShape (b :: bs))
                (solids_map_OShape (b :: bs))) as [mm [-> Hmm]].
    cbn [bind cq.add cq.XY cq.objects app]. rewrite Hmm, Ha.
    assert (Hfuse : forall tail : list cq.Obj,
              forallb cq.is_solid tail = true ->
              forallb cq.is_solid
                ((cq.objects fm ++ cq.objects cm) ++
                 [cq.OShape (fold_left cq.Fuse bs b)] ++ tail) = true /\
              exists s0 rest,
                cq.solids ((cq.objects fm ++ cq.objects cm) ++
                           [cq.OShape (fold_left cq.Fuse bs b)] ++ tail)
                = s0 :: rest /\
                forall p,
                  (exists t, In t (s0 :: rest) /\ cq.inside t p) <->
                  (exists t,
                     In t (cq.solids (cq.objects fm) ++
                           cq.solids (cq.objects cm) ++
                           (b :: bs) ++ cq.solids tail) /\
                     cq.inside t p)).
    { intros tail Htail. split.
      { rewrite forallb_app, Hgen. cbn [app forallb cq.is_solid andb].
        exact Htail. }
      rewrite !solids_app.
      change (cq.solids [cq.OShape (fold_left cq.Fuse bs b)])
        with [fold_left cq.Fuse bs b].
      destruct ((cq.solids (cq.objects fm) ++ cq.solids (cq.objects cm)) ++
                [fold_left cq.Fuse bs b] ++ cq.solids tail) as [ | s0 rest] eqn:E.
      - exfalso. apply app_eq_nil in E. destruct E as [_ E]. discriminate E.
      - exists s0, rest. split; [reflexivity | ]. intros p. rewrite <- E.
        split; intros [t [Hin Hp]].
        + rewrite <- app_assoc in Hin.
          apply in_app_or in Hin. destruct Hin as [Hin | Hin];
            [exists t; split; [apply in_or_app; left; exact Hin | exact Hp] | ].
          apply in_app_or in Hin. destruct Hin as [Hin | Hin];
            [exists t; split;
               [apply in_or_app; right; apply in_or_app; left; exact Hin
               | exact Hp] | ].
          destruct Hin as [<- | Hin].
          * apply inside_fold_left_Fuse in Hp. destruct Hp as [t [Hin Hp]].
            exists t. split; [ | exact Hp].
            apply in_or_app; right; apply in_or_app; right.
            apply in_or_app; left; exact Hin.
          * exists t. split; [ | exact Hp].
            apply in_or_app; right; apply in_or_app; right.
            apply in_or_app; right; exact Hin.
        + rewrite <- app_assoc.
          apply in_app_or in Hin. destruct Hin as [Hin | Hin];
            [exists t; split; [apply in_or_app; left; exact Hin | exact Hp] | ].
          apply in_app_or in Hin. destruct Hin as [Hin | Hin];
            [exists t; split;
               [apply in_or_app; right; apply in_or_app; left; exact Hin
               | exact Hp] | ].
          apply in_app_or in Hin. destruct Hin as [Hin | Hin].
          * exists (fold_left cq.Fuse bs b). split.
            -- apply in_or_app; right; apply in_or_app; right.
               left; reflexivity.
            -- apply inside_fold_left_Fuse. exists t. split; assumption.
          * exists t. split; [ | exact Hp].
            apply in_or_app; right; apply in_or_app; right.
            right; exact Hin. }
    destruct show_axis; cbn [bind cq.add cq.objects].
    + destruct (Hfuse (cq.objects axis_wp)) as [Hall [s0 [rest [E Hpts]]]];
        [rewrite Hao; reflexivity | ].
      match goal with
      | |- context [cq.combine false ?wp] =>
          destruct (combine_solids false wp s0 rest) as [wp' [-> Hwp']];
            [cbn [cq.objects]; rewrite <- Hall; f_equal;
             rewrite <- ?app_assoc; reflexivity
            |cbn [cq.objects]; rewrite <- E; f_equal;
             rewrite <- ?app_assoc; reflexivity | ]
      end.
      cbn [bind]. do 2 eexists. split; [reflexivity | ].
      cbn [MaskModel.model]. split; [reflexivity | ]. cbv zeta.
      exists (fold_left cq.Fuse rest s0). split; [exact Hwp' | ].
      intros p. rewrite inside_fold_left_Fuse, Hpts, Has. reflexivity.
    + destruct (Hfuse []) as [Hall [s0 [rest [E Hpts]]]]; [reflexivity | ].
      match goal with
      | |- context [cq.combine false ?wp] =>
          destruct (combine_solids false wp s0 rest) as [wp' [-> Hwp']];
            [cbn [cq.objects]; rewrite <- Hall; f_equal;
             rewrite <- ?app_assoc, ?app_nil_r; reflexivity
            |cbn [cq.objects]; rewrite <- E; f_equal;
             rewrite <- ?app_assoc, ?app_nil_r; reflexivity | ]
      end.
      cbn [bind]. do 2 eexists. split; [reflexivity | ].
      cbn [MaskModel.model]. split; [reflexivity | ]. cbv zeta.
      exists (fold_left cq.Fuse rest s0). split; [exact Hwp' | ].
      intros p. rewrite inside_fold_left_Fuse, Hpts. reflexivity.
  - cbn [bind cq.add cq.XY cq.objects app].
    destruct show_axis; cbn [bind cq.add cq.objects].
    + rewrite Ha. cbn [bind cq.add cq.objects].
      do 2 eexists. split; [reflexivity | ].
      cbn [MaskModel.model]. split; [reflexivity | ]. cbv zeta.
      cbn [cq.objects]. rewrite !solids_app, solids_map_OShape, Has.
      rewrite <- !app_assoc. reflexivity.
    + do 2 eexists. split; [reflexivity | ].
      cbn [MaskModel.model]. split; [reflexivity | ]. cbv zeta.
      cbn [cq.objects]. rewrite !solids_app, solids_map_OShape, app_nil_r.
      rewrite <- !app_assoc. reflexivity.
Qed.

(** The two generators of the repository leave one solid on the stack. *)
Lemma SimpleFrame_generate_objects p w h d :
  0 < w + 2 * p -> 0 < h + 2 * p -> 0 < d -> w <> 0 -> h <> 0 ->
  exists wp s,
    SimpleFrame.generate (SimpleFrame.new p) (w, h) d = Ok wp /\
    cq.objects wp = [cq.OShape s].
Proof.
  intros Hwp Hhp Hd Hw Hh. cq_run. do 2 eexists. split; reflexivity.
Qed.

Lemma CrossConnection_generate_objects t r mask w h d :
  0 < t -> 0 < w -> 0 < h -> 0 < d ->
  (forall radius, r = Some radius -> 0 < radius) ->
  exists wp s,
    CrossConnection.generate (CrossConnection.new t r) mask (w, h) d = Ok wp /\
    cq.objects wp = [cq.OShape s].
Proof.
  intros Ht Hw Hh Hd Hr. destruct r as [radius | ].
  - pose proof (Hr radius eq_refl) as Hrad. cq_run.
    do 2 eexists; split; reflexivity.
  - cq_run. do 2 eexists; split; reflexivity.
Qed.

(** The generators at the sample setting: [SimpleFrame(2)] and
    [CrossConnection(0.1)] on 1 mm x 1 mm, depth 0.5 mm. *)
Lemma sample_generators (mask : np.ndarray) :
  exists fm cm fs cs,
    SimpleFrame.generate (SimpleFrame.new 2)
      (1 / 1000 * 1000, 1 / 1000 * 1000) (1 / 2) = Ok fm /\
    CrossConnection.generate (CrossConnection.new (1 / 10) None) mask
      (1 / 1000 * 1000, 1 / 1000 * 1000) (1 / 2) = Ok cm /\
    cq.objects fm = [cq.OShape fs] /\ cq.objects cm = [cq.OShape cs].
Proof.
  destruct (SimpleFrame_generate_objects 2 (1 / 1000 * 1000)
              (1 / 1000 * 1000) (1 / 2)) as [fm [fs [Hf Hfo]]]; try lra.
  destruct (CrossConnection_generate_objects (1 / 10) None mask
              (1 / 1000 * 1000) (1 / 1000 * 1000) (1 / 2))
    as [cm [cs [Hc Hco]]]; try lra.
  - intros radius Er. discriminate Er.
  - exists fm, cm, fs, cs. repeat split; assumption.
Qed.

(** Construction at the sample setting, both flags off. *)
Lemma sample_init (mask : np.ndarray) :
  (0 < fst (np.shape mask))%nat -> (0 < snd (np.shape mask))%nat ->
  exists m wp fs cs,
    MaskModel.__init__ mask (SimpleFrame.new 2)
      (CrossConnection.new (1 / 10) None)
      (MaskModel.size_tuple (1 / 1000) (1 / 1000)) (1 / 2) false false
    = Ok m /\
    MaskModel.model m = Some wp /\
    cq.solids (cq.objects wp) =
      fs :: cs ::
      MaskModel.aperture_boxes mask (1 / 1000 * 1000, 1 / 1000 * 1000)
        (1 / 2).
Proof.
  intros HH HW.
  destruct (sample_generators mask) as [fm [cm [fs [cs [Hf [Hc [Hfo Hco]]]]]]].
  destruct (@MaskModel_init_solids _ _ SimpleFrame_Frame
              CrossConnection_Connection mask (SimpleFrame.new 2)
              (CrossConnection.new (1 / 10) None)
              (MaskModel.size_tuple (1 / 1000) (1 / 1000)) (1 / 2) fm cm)
    as [m [wp [Hm [Hw Hs]]]];
    try (cbn [MaskModel.lengths fst snd]; lra); try assumption.
  exists m, wp, fs, cs. split; [exact Hm | ]. split; [exact Hw | ].
  rewrite Hs, Hfo, Hco. reflexivity.
Qed.

(** * The aperture array and the mask values *)

(** C1, at the all-opaque 2 x 2 mask of 1 mm x 1 mm, depth 0.5 mm, with
    [SimpleFrame(2)] and [CrossConnection(0.1)]: no cell is zero, and the
    aperture builder still emits a box, of the pixel size, with its corner
    at the origin; the model holds three solids, the frame, the cross and
    that box. *)
Theorem all_opaque_mask_emits_a_box :
  (forall i j, (i < 2)%nat -> (j < 2)%nat -> np.item opaque_2x2 i j = 1%Z) /\
  np.argwhere_eq0 opaque_2x2 = [] /\
  exists m wp frame_solid cross_solid,
    MaskModel.__init__ opaque_2x2 (SimpleFrame.new 2)
      (CrossConnection.new (1 / 10) None)
      (MaskModel.size_tuple (1 / 1000) (1 / 1000)) (1 / 2) false false
    = Ok m /\
    MaskModel.model m = Some wp /\
    cq.solids (cq.objects wp) =
      [frame_solid; cross_solid;
       cq.Box (cq.V3 0 0 0) (1 / 2) (1 / 2) (1 / 2)].
Proof.
  split; [ | split].
  - intros [ | [ | i]] [ | [ | j]] Hi Hj; try lia; reflexivity.
  - reflexivity.
  - destruct (sample_init opaque_2x2) as [m [wp [fs [cs [Hm [Hw Hs]]]]]];
      [cbn; lia | cbn; lia | ].
    exists m, wp, fs, cs.
    split; [exact Hm | ]. split; [exact Hw | ].
    rewrite Hs.
    rewrite (aperture_boxes_no_cell opaque_2x2);
      [ | cbn [fst snd np.shape opaque_2x2 INR]; lra ..
        | reflexivity].
    cbn [fst snd np.shape opaque_2x2 INR].
    repeat (f_equal; try lra).
Qed.

(** C2, as stated, fails: on a mask of one row and two columns the boxes
    are width / 1 long, not width / 2. *)
Lemma pixel_width_is_not_width_over_columns :
  ~ (forall mask a b depth box,
       In box (MaskModel.aperture_boxes mask (a * 1000, b * 1000) depth) ->
       exists pnt,
         box = cq.Box pnt (a * 1000 / INR (snd (np.shape mask)))
                 (b * 1000 / INR (fst (np.shape mask))) depth).
Proof.
  intros H.
  destruct (H clear_1x2 (1 / 1000) (1 / 1000) 1
              (cq.Box (cq.V3 ((INR 0 - INR 1 / 2) * (1 / 1000 * 1000 / INR 1))
                         ((INR 0 - INR 2 / 2) * (1 / 1000 * 1000 / INR 2)) 0)
                 (1 / 1000 * 1000 / INR 1) (1 / 1000 * 1000 / INR 2) 1))
    as [pnt E].
  - rewrite aperture_boxes_cells;
      [ | cbn [fst snd np.shape clear_1x2 INR]; lra ..
        | discriminate].
    left. reflexivity.
  - injection E as _ E _. cbn [np.shape clear_1x2 fst snd INR] in E. lra.
Qed.

(** C2, amended.  A finished construction stores the size in millimetres,
    (width, height) = the input size times 1000, and the pixel size is
    that size divided by [mask.shape] = (H, W) element by element:
    pixel_width = width / H and pixel_height = height / W; every aperture
    box is pixel_width x pixel_height x depth. *)
Theorem MaskModel_pixel_size {F C : Type} `{Frame F} `{Connection C}
    (mask : np.ndarray) (frame : F) (connection : C)
    (sz : MaskModel.size_arg) (depth : R) (simplify show_axis : bool)
    (m : MaskModel.t F C) :
  MaskModel.__init__ mask frame connection sz depth simplify show_axis = Ok m ->
  let width := fst (MaskModel.lengths sz) * 1000 in
  let height := snd (MaskModel.lengths sz) * 1000 in
  let H := fst (np.shape mask) in
  let W := snd (np.shape mask) in
  MaskModel.mask_size m = (width, height) /\
  MaskModel.px_size_of (MaskModel.mask_size m) (np.shape (MaskModel.mask m))
    = (width / INR H, height / INR W) /\
  forall box,
    In box (MaskModel.aperture_boxes (MaskModel.mask m) (MaskModel.mask_size m)
              (MaskModel.depth m)) ->
    exists pnt, box = cq.Box pnt (width / INR H) (height / INR W) depth.
Proof.
  intros Hm width height H' W'.
  destruct (MaskModel_init_fields _ _ _ _ _ _ _ _ Hm) as [-> [-> ->]].
  split; [reflexivity | ]. split; [reflexivity | ].
  intros box Hin. exact (aperture_boxes_size _ _ _ _ Hin).
Qed.

Lemma MaskModel_pixel_size_witness :
  exists m,
    MaskModel.__init__ clear_1x2 (SimpleFrame.new 2)
      (CrossConnection.new (1 / 10) None)
      (MaskModel.size_tuple (1 / 1000) (1 / 1000)) (1 / 2) false false
    = Ok m /\
    MaskModel.px_size_of (MaskModel.mask_size m) (np.shape (MaskModel.mask m))
    = (1 / 1000 * 1000 / INR 1, 1 / 1000 * 1000 / INR 2).
Proof.
  destruct (sample_init clear_1x2) as [m [wp [fs [cs [Hm _]]]]];
    [cbn; lia | cbn; lia | ].
  exists m. split; [exact Hm | ].
  apply (@MaskModel_pixel_size _ _ SimpleFrame_Frame
           CrossConnection_Connection clear_1x2 (SimpleFrame.new 2)
           (CrossConnection.new (1 / 10) None)
           (MaskModel.size_tuple (1 / 1000) (1 / 1000)) (1 / 2) false false).
  exact Hm.
Defined.

(** C9, as stated, fails: a mask with a cell valued 2 is built into a
    model, and nothing is raised. *)
Lemma mask_value_2_accepted :
  ~ (forall (F C : Type) (HF : Frame F) (HC : Connection C)
            (mask : np.ndarray) (frame : F) (connection : C)
            (sz : MaskModel.size_arg) (depth : R) (simplify show_axis : bool),
       (exists i j,
          (i < fst (np.shape mask))%nat /\ (j < snd (np.shape mask))%nat /\
          np.item mask i j <> 0%Z /\ np.item mask i j <> 1%Z) ->
       raises_class "UnsupportedMaskValue"
         (MaskModel.__init__ mask frame connection sz depth simplify
            show_axis)).
Proof.
  intros H.
  destruct (sample_init mask_with_2) as [m [wp [fs [cs [Hm _]]]]];
    [cbn; lia | cbn; lia | ].
  destruct (H _ _ _ _ mask_with_2 (SimpleFrame.new 2)
              (CrossConnection.new (1 / 10) None)
              (MaskModel.size_tuple (1 / 1000) (1 / 1000)) (1 / 2) false false)
    as [e [He _]].
  - exists 0%nat, 1%nat. cbn. repeat split; (lia || discriminate).
  - rewrite Hm in He. discriminate He.
Qed.

(** C9, amended.  Construction does not check the values of the mask: a
    cell is transparent when it is 0 and opaque otherwise, be it 1 or any
    other value.  When the size and the depth are positive, the frame and
    the connection generators return and the mask has a zero cell,
    construction with both flags off returns a model whose solids are
    those of the frame, those of the connection and one box per zero
    cell, in row-major order. *)
Theorem MaskModel_mask_values_unchecked {F C : Type} `{Frame F} `{Connection C}
    (mask : np.ndarray) (frame : F) (connection : C)
    (sz : MaskModel.size_arg) (depth : R) (fm cm : cq.Workplane) :
  let mask_size :=
    (fst (MaskModel.lengths sz) * 1000, snd (MaskModel.lengths sz) * 1000) in
  0 < fst (MaskModel.lengths sz) -> 0 < snd (MaskModel.lengths sz) ->
  0 < depth ->
  Frame_generate frame mask_size depth = Ok fm ->
  Connection_generate connection mask mask_size depth = Ok cm ->
  np.argwhere_eq0 mask <> [] ->
  (forall i j,
     In (i, j) (np.argwhere_eq0 mask) <->
     (i < fst (np.shape mask))%nat /\ (j < snd (np.shape mask))%nat /\
     np.item mask i j = 0%Z) /\
  exists m wp,
    MaskModel.__init__ mask frame connection sz depth false false = Ok m /\
    MaskModel.model m = Some wp /\
    cq.solids (cq.objects wp) =
      cq.solids (cq.objects fm) ++ cq.solids (cq.objects cm) ++
      map (fun ij : nat * nat =>
             cq.Box
               (cq.V3
                  ((INR (fst ij) - INR (fst (np.shape mask)) / 2)
                   * (fst mask_size / INR (fst (np.shape mask))))
                  ((INR (snd ij) - INR (snd (np.shape mask)) / 2)
                   * (snd mask_size / INR (snd (np.shape mask))))
                  0)
               (fst mask_size / INR (fst (np.shape mask)))
               (snd mask_size / INR (snd (np.shape mask)))
               depth)
          (np.argwhere_eq0 mask).
Proof.
  intros mask_size Ha Hb Hd Hf Hc Hne. split; [apply argwhere_eq0_In | ].
  destruct (argwhere_eq0_shape mask Hne) as [HH HW].
  destruct (pixel_pos sz mask Ha Hb HH HW) as [Hx Hy].
  destruct (MaskModel_init_solids mask frame connection sz depth fm cm
              Ha Hb Hd HH HW Hf Hc)
    as [m [wp [Hm [Hw Hs]]]].
  exists m, wp. split; [exact Hm | ]. split; [exact Hw | ].
  rewrite Hs, (aperture_boxes_cells mask _ depth Hx Hy Hd Hne). reflexivity.
Qed.

Lemma MaskModel_mask_values_unchecked_witness :
  np.item mask_with_2 0 1 = 2%Z /\
  np.argwhere_eq0 mask_with_2 = [(0, 0); (1, 1)]%nat /\
  exists m wp,
    MaskModel.__init__ mask_with_2 (SimpleFrame.new 2)
      (CrossConnection.new (1 / 10) None)
      (MaskModel.size_tuple (1 / 1000) (1 / 1000)) (1 / 2) false false
    = Ok m /\
    MaskModel.model m = Some wp /\
    List.length (cq.solids (cq.objects wp)) = 4%nat.
Proof.
  split; [reflexivity | ]. split; [reflexivity | ].
  destruct (sample_generators mask_with_2)
    as [fm [cm [fs [cs [Hf [Hc [Hfo Hco]]]]]]].
  destruct (@MaskModel_mask_values_unchecked _ _ SimpleFrame_Frame
              CrossConnection_Connection mask_with_2 (SimpleFrame.new 2)
              (CrossConnection.new (1 / 10) None)
              (MaskModel.size_tuple (1 / 1000) (1 / 1000)) (1 / 2) fm cm)
    as [_ [m [wp [Hm [Hw Hs]]]]];
    try (cbn [MaskModel.lengths fst snd]; lra); try assumption.
  - discriminate.
  - exists m, wp. split; [exact Hm | ]. split; [exact Hw | ].
    rewrite Hs, Hfo, Hco. reflexivity.
Defined.
(** * The aperture boxes, counted and placed *)

Lemma filter_map_S (f : nat -> bool) (s : list nat) :
  filter f (map S s) = map S (filter (fun j => f (S j)) s).
Proof.
  induction s as [ | a s IH]; [reflexivity | ].
  cbn [map filter]. destruct (f (S a)); cbn [map]; rewrite IH; reflexivity.
Qed.

Lemma flat_map_ext_on {A B : Type} (f g : A -> list B) (l : list A) :
  (forall x, In x l -> f x = g x) -> flat_map f l = flat_map g l.
Proof.
  induction l as [ | a l IH]; intros Hfg; [reflexivity | ].
  cbn [flat_map]. rewrite Hfg by (left; reflexivity).
  rewrite IH by (intros x Hx; apply Hfg; right; exact Hx). reflexivity.
Qed.

(** The zero cells of an array, counted on its buffer. *)
Lemma filter_seq_count (l : list Z) :
  List.length (filter (fun j => Z.eqb (nth j l 0%Z) 0) (seq 0 (List.length l)))
  = count_occ Z.eq_dec l 0%Z.
Proof.
  induction l as [ | z l IH]; [reflexivity | ].
  cbn [List.length seq filter nth]. rewrite <- seq_shift, filter_map_S.
  cbn [nth count_occ].
  destruct (Z.eq_dec z 0) as [-> | Hz].
  - cbn [Z.eqb List.length]. rewrite length_map, IH. reflexivity.
  - destruct (Z.eqb_spec z 0) as [Hz' | _]; [contradiction | ].
    rewrite length_map, IH. reflexivity.
Qed.

Lemma argwhere_rows_count (W : nat) (H : nat) (buf : list Z) :
  List.length buf = (H * W)%nat ->
  List.length
    (flat_map
       (fun i =>
          map (pair i)
            (filter (fun j => Z.eqb (nth (i * W + j) buf 0%Z) 0) (seq 0 W)))
       (seq 0 H))
  = count_occ Z.eq_dec buf 0%Z.
Proof.
  revert buf. induction H as [ | H IH]; intros buf Hlen.
  - destruct buf; [reflexivity | discriminate Hlen].
  - assert (Hb : exists b1 b2,
               buf = b1 ++ b2 /\ List.length b1 = (H * W)%nat /\
               List.length b2 = W).
    { exists (firstn (H * W) buf), (skipn (H * W) buf).
      split; [symmetry; apply firstn_skipn | ].
      split; [rewrite length_firstn | rewrite length_skipn]; lia. }
    destruct Hb as [b1 [b2 [-> [Hf Hs]]]].
    rewrite seq_S, flat_map_app, length_app. cbn [flat_map Nat.add].
    rewrite app_nil_r, length_map, count_occ_app. f_equal.
    + rewrite <- (IH b1 Hf).
      f_equal. apply flat_map_ext_on. intros i Hi. apply in_seq in Hi.
      f_equal. apply filter_ext_in. intros j Hj. apply in_seq in Hj.
      rewrite app_nth1; [reflexivity | ]. rewrite Hf. nia.
    + rewrite <- (filter_seq_count b2), Hs.
      f_equal. apply filter_ext_in. intros j Hj.
      rewrite app_nth2 by lia. rewrite Hf.
      replace (H * W + j - H * W)%nat with j by lia. reflexivity.
Qed.

(** [np.argwhere(mask == 0)] has one index per zero of the buffer. *)
Lemma argwhere_eq0_length (a : np.ndarray) :
  List.length (np.argwhere_eq0 a) = count_occ Z.eq_dec (np.buffer a) 0%Z.
Proof.
  unfold np.argwhere_eq0, np.item.
  apply argwhere_rows_count. exact (np.buffer_size a).
Qed.

(** X1.  With a positive size and depth, as many boxes as zero cells,
    when there is a zero cell. *)
Theorem aperture_boxes_count mask mask_size depth :
  0 < fst mask_size -> 0 < snd mask_size -> 0 < depth ->
  In 0%Z (np.buffer mask) ->
  List.length (MaskModel.aperture_boxes mask mask_size depth)
  = count_occ Z.eq_dec (np.buffer mask) 0%Z.
Proof.
  intros Ha Hb Hd Hin. pose proof (argwhere_eq0_length mask) as Hlen.
  apply (count_occ_In Z.eq_dec) in Hin.
  assert (Hne : np.argwhere_eq0 mask <> []).
  { intros E. rewrite E in Hlen. cbn [List.length] in Hlen. lia. }
  destruct (argwhere_eq0_shape mask Hne) as [HH HW].
  rewrite aperture_boxes_cells;
    [ | apply quotient_pos; assumption .. | assumption | exact Hne].
  rewrite length_map. exact Hlen.
Qed.

Lemma aperture_boxes_count_witness :
  0 < 1 /\ In 0%Z (np.buffer mask_with_2) /\
  List.length (MaskModel.aperture_boxes mask_with_2 (1, 1) 1) = 2%nat.
Proof.
  assert (Hin : In 0%Z (np.buffer mask_with_2)) by (left; reflexivity).
  split; [lra | ]. split; [exact Hin | ].
  apply (aperture_boxes_count mask_with_2 (1, 1) 1);
    [cbn [fst]; lra | cbn [snd]; lra | lra | exact Hin].
Defined.




(** X5.  A mask without a zero cell still gets one box: with no point on the
    stack, [box] makes one at the origin, of the pixel size. *)
Theorem no_zero_cell_one_box_at_origin mask w h depth :
  0 < w -> 0 < h -> 0 < depth ->
  (0 < fst (np.shape mask) * snd (np.shape mask))%nat ->
  (forall i j, (i < fst (np.shape mask))%nat -> (j < snd (np.shape mask))%nat ->
               np.item mask i j <> 0%Z) ->
  MaskModel.mask_to_points mask (w, h)
    (MaskModel.px_size_of (w, h) (np.shape mask)) = [] /\
  MaskModel.aperture_boxes mask (w, h) depth =
  [cq.Box (cq.V3 0 0 0) (w / INR (fst (np.shape mask)))
     (h / INR (snd (np.shape mask))) depth].
Proof.
  intros Hw Hh Hd Hpos Hz. pose proof (argwhere_eq0_no_zero mask Hz) as E.
  split.
  - unfold MaskModel.mask_to_points. rewrite E. reflexivity.
  - apply (aperture_boxes_no_cell mask (w, h) depth);
      [apply quotient_pos; [exact Hw | nia]
      | apply quotient_pos; [exact Hh | nia]
      | exact Hd | exact E].
Qed.

Lemma no_zero_cell_one_box_at_origin_witness :
  0 < 1 /\ 0 < 1 /\ 0 < 1 /\
  (0 < fst (np.shape opaque_2x2) * snd (np.shape opaque_2x2))%nat /\
  MaskModel.aperture_boxes opaque_2x2 (1, 1) 1 =
  [cq.Box (cq.V3 0 0 0) (1 / INR 2) (1 / INR 2) 1].
Proof.
  assert (Hpos : (0 < fst (np.shape opaque_2x2)
                      * snd (np.shape opaque_2x2))%nat) by (cbn; lia).
  split; [lra | ]. split; [lra | ]. split; [lra | ]. split; [exact Hpos | ].
  apply (no_zero_cell_one_box_at_origin opaque_2x2 1 1 1); try lra;
    try exact Hpos.
  intros [ | [ | i]] [ | [ | j]] Hi Hj; cbn in Hi, Hj; try lia; discriminate.
Defined.

(** * The frame and the connections as point sets *)

(** The points of the solid [SimpleFrame.generate] returns. *)
Lemma SimpleFrame_inside p w h d x y z :
  0 <= w -> 0 <= h ->
  cq.inside
    (cq.ThruCut
       (cq.Box (cq.V3 (- ((w + 2 * p) / 2)) (- ((h + 2 * p) / 2)) 0)
          (w + 2 * p) (h + 2 * p) d)
       (cq.Polygon [cq.V3 (- (w / 2)) (- (h / 2)) (d / 2);
                    cq.V3 (w / 2) (- (h / 2)) (d / 2);
                    cq.V3 (w / 2) (h / 2) (d / 2);
                    cq.V3 (- (w / 2)) (h / 2) (d / 2)]))
    (cq.V3 x y z)
  <-> (- ((w + 2 * p) / 2) <= x <= (w + 2 * p) / 2 /\
       - ((h + 2 * p) / 2) <= y <= (h + 2 * p) / 2 /\
       0 <= z <= d) /\
      ~ (- (w / 2) <= x < w / 2 /\ - (h / 2) <= y < h / 2).
Proof.
  intros Hw Hh. cbn [cq.inside cq.vx cq.vy cq.vz].
  rewrite in_face_rectangle by lra. lra.
Qed.



(** X7.  Without padding, or with a negative one, the frame has no wall: no
    point strictly inside the outer box belongs to it. *)
Theorem SimpleFrame_without_padding_has_no_wall p w h d x y z :
  0 < w -> 0 < h -> 0 < d -> p <= 0 -> 0 < w + 2 * p -> 0 < h + 2 * p ->
  - ((w + 2 * p) / 2) < x < (w + 2 * p) / 2 ->
  - ((h + 2 * p) / 2) < y < (h + 2 * p) / 2 ->
  exists s,
    cq.vals (SimpleFrame.generate (SimpleFrame.new p) (w, h) d) = Ok [s] /\
    ~ cq.inside s (cq.V3 x y z).
Proof.
  intros Hw Hh Hd Hp Hwp Hhp Hx Hy.
  eexists. split; [apply SimpleFrame_generate_vals; lra | ].
  rewrite SimpleFrame_inside by lra. lra.
Qed.

Lemma SimpleFrame_without_padding_has_no_wall_witness :
  0 < 1 /\ 0 < 1 /\ 0 < 1 /\ 0 <= 0 /\ 0 < 1 + 2 * 0 /\
  exists s,
    cq.vals (SimpleFrame.generate (SimpleFrame.new 0) (1, 1) 1) = Ok [s] /\
    ~ cq.inside s (cq.V3 (1 / 4) (1 / 4) (1 / 2)).
Proof.
  split; [lra | ]. split; [lra | ]. split; [lra | ]. split; [lra | ].
  split; [lra | ].
  apply (SimpleFrame_without_padding_has_no_wall 0 1 1 1 (1 / 4) (1 / 4)
           (1 / 2)); lra.
Defined.

(** The points of the cross, with or without a bore. *)
Lemma CrossConnection_inside t r mask w h d :
  0 < t -> 0 < w -> 0 < h -> 0 < d ->
  (forall radius, r = Some radius -> 0 < radius) ->
  exists s,
    cq.vals (CrossConnection.generate (CrossConnection.new t r) mask (w, h) d)
    = Ok [s] /\
    forall x y z,
      cq.inside s (cq.V3 x y z) <->
      (((- (t / 2) <= x <= t / 2 /\ - (h / 2) <= y <= h / 2) \/
        (- (w / 2) <= x <= w / 2 /\ - (t / 2) <= y <= t / 2)) /\
       0 <= z <= d) /\
      match r with
      | None => True
      | Some radius => ~ (x * x + y * y <= radius * radius)
      end.
Proof.
  intros Ht Hw Hh Hd Hr.
  rewrite CrossConnection_generate_vals by assumption.
  destruct r as [radius | ];
    eexists; (split; [reflexivity | ]); intros x y z;
    cbn [cq.inside cq.vx cq.vy cq.vz].
  - replace (x - 0) with x by ring. replace (y - 0) with y by ring. lra.
  - lra.
Qed.

(** X8.  A cross no thicker than the mask is wide and high stays within the
    footprint of the mask and, when the bore is narrower than the mask,
    reaches the middle of each of its four sides. *)
Theorem CrossConnection_spans_cutout t r mask w h d :
  0 < t <= w -> t <= h -> 0 < d ->
  (forall radius, r = Some radius -> 0 < radius < w / 2 /\ radius < h / 2) ->
  exists s,
    cq.vals (CrossConnection.generate (CrossConnection.new t r) mask (w, h) d)
    = Ok [s] /\
    (forall x y z,
       cq.inside s (cq.V3 x y z) ->
       - (w / 2) <= x <= w / 2 /\ - (h / 2) <= y <= h / 2 /\ 0 <= z <= d) /\
    (forall z, 0 <= z <= d ->
       cq.inside s (cq.V3 (w / 2) 0 z) /\ cq.inside s (cq.V3 (- (w / 2)) 0 z) /\
       cq.inside s (cq.V3 0 (h / 2) z) /\ cq.inside s (cq.V3 0 (- (h / 2)) z)).
Proof.
  intros Ht Hth Hd Hr.
  destruct (CrossConnection_inside t r mask w h d) as [s [E Hin]];
    try lra.
  { intros radius Er. destruct (Hr radius Er) as [Hrad _]. lra. }
  exists s. split; [exact E | ]. split.
  - intros x y z Hp. apply Hin in Hp. lra.
  - intros z Hz. rewrite !Hin.
    destruct r as [radius | ].
    + destruct (Hr radius eq_refl) as [Hrw Hrh]. repeat split; try lra; nra.
    + repeat split; lra.
Qed.

Lemma CrossConnection_spans_cutout_witness :
  0 < 1 / 10 <= 1 /\ 1 / 10 <= 1 /\ 0 < 1 /\
  (0 < 1 / 4 < 1 / 2 /\ 1 / 4 < 1 / 2) /\
  exists s,
    cq.vals
      (CrossConnection.generate (CrossConnection.new (1 / 10) (Some (1 / 4)))
         opaque_1x1 (1, 1) 1) = Ok [s] /\
    cq.inside s (cq.V3 (1 / 2) 0 (1 / 2)).
Proof.
  split; [lra | ]. split; [lra | ]. split; [lra | ]. split; [lra | ].
  destruct (CrossConnection_spans_cutout (1 / 10) (Some (1 / 4)) opaque_1x1
              1 1 1) as [s [E [_ Hs]]]; try lra.
  - intros radius Er. injection Er as <-. lra.
  - exists s. split; [exact E | ]. apply (Hs (1 / 2)). lra.
Defined.

(** X9.  A bore that reaches the corners of the footprint leaves nothing of
    the cross, and nothing is raised: the radius is not checked against
    the size. *)
Theorem CrossConnection_oversized_bore t radius mask w h d :
  0 < t <= w -> t <= h -> 0 < d -> 0 < radius ->
  w / 2 * (w / 2) + h / 2 * (h / 2) <= radius * radius ->
  ~ raises
      (CrossConnection.generate (CrossConnection.new t (Some radius)) mask
         (w, h) d) /\
  exists s,
    cq.vals
      (CrossConnection.generate (CrossConnection.new t (Some radius)) mask
         (w, h) d) = Ok [s] /\
    forall x y z, ~ cq.inside s (cq.V3 x y z).
Proof.
  intros Ht Hth Hd Hrad Hr.
  destruct (CrossConnection_inside t (Some radius) mask w h d)
    as [s [E Hin]]; try lra.
  { intros radius' Er. injection Er as <-. exact Hrad. }
  split; [exact (vals_Ok_not_raises _ _ E) | ].
  exists s. split; [exact E | ]. intros x y z.
  rewrite Hin. intros [[Hxy _] Hout]. apply Hout. nra.
Qed.

Lemma CrossConnection_oversized_bore_witness :
  0 < 1 / 10 <= 1 /\ 1 / 10 <= 1 /\ 0 < 1 /\ 0 < 1 /\
  1 / 2 * (1 / 2) + 1 / 2 * (1 / 2) <= 1 * 1 /\
  ~ raises
      (CrossConnection.generate (CrossConnection.new (1 / 10) (Some 1))
         opaque_1x1 (1, 1) 1).
Proof.
  split; [lra | ]. split; [lra | ]. split; [lra | ]. split; [lra | ].
  split; [lra | ].
  apply (CrossConnection_oversized_bore (1 / 10) 1 opaque_1x1 1 1 1); lra.
Defined.





(** * The flags of the constructor *)

(** X12.  With a positive size and depth, a mask with a row and a column
    and generators that leave nothing but solids, [simplify] fuses the
    model into one solid and changes no point: the points of the fused
    solid are the points of the solids the model holds without
    [simplify]. *)
Theorem simplify_keeps_the_points {F C : Type} `{Frame F} `{Connection C}
    (mask : np.ndarray) (frame : F) (connection : C)
    (sz : MaskModel.size_arg) (depth : R) (show_axis : bool)
    (fm cm : cq.Workplane) :
  let mask_size :=
    (fst (MaskModel.lengths sz) * 1000, snd (MaskModel.lengths sz) * 1000) in
  0 < fst (MaskModel.lengths sz) -> 0 < snd (MaskModel.lengths sz) ->
  0 < depth ->
  (0 < fst (np.shape mask))%nat -> (0 < snd (np.shape mask))%nat ->
  Frame_generate frame mask_size depth = Ok fm ->
  Connection_generate connection mask mask_size depth = Ok cm ->
  Forall (fun o => exists s, o = cq.OShape s) (cq.objects fm ++ cq.objects cm) ->
  exists m wp m' wp' s,
    MaskModel.__init__ mask frame connection sz depth false show_axis = Ok m /\
    MaskModel.model m = Some wp /\
    MaskModel.__init__ mask frame connection sz depth true show_axis = Ok m' /\
    MaskModel.model m' = Some wp' /\
    cq.objects wp' = [cq.OShape s] /\
    forall p,
      cq.inside s p <->
      exists t, In t (cq.solids (cq.objects wp)) /\ cq.inside t p.
Proof.
  intros mask_size Ha Hb Hd HH HW Hf Hc Hsolid.
  destruct (MaskModel_init_stack mask frame connection sz depth fm cm
              Ha Hb Hd HH HW Hf Hc)
    as [axis [_ Hflags]].
  destruct (Hflags false show_axis) as [m [wp [Hm [Hw Hs]]]];
    [intros E; discriminate E | ].
  destruct (Hflags true show_axis (fun _ => Hsolid))
    as [m' [wp' [Hm' [Hw' [s [Ho Hp]]]]]].
  exists m, wp, m', wp', s.
  repeat (split; [assumption | ]).
  intros p. cbv zeta in Hs. rewrite Hs. apply Hp.
Qed.

Lemma simplify_keeps_the_points_witness :
  exists m' wp' s,
    MaskModel.__init__ mask_with_2 (SimpleFrame.new 2)
      (CrossConnection.new (1 / 10) None)
      (MaskModel.size_tuple (1 / 1000) (1 / 1000)) (1 / 2) true false = Ok m' /\
    MaskModel.model m' = Some wp' /\
    cq.objects wp' = [cq.OShape s].
Proof.
  destruct (sample_generators mask_with_2)
    as [fm [cm [fs [cs [Hf [Hc [Hfo Hco]]]]]]].
  destruct (@simplify_keeps_the_points _ _ SimpleFrame_Frame
              CrossConnection_Connection mask_with_2 (SimpleFrame.new 2)
              (CrossConnection.new (1 / 10) None)
              (MaskModel.size_tuple (1 / 1000) (1 / 1000)) (1 / 2) false
              fm cm)
    as [m [wp [m' [wp' [s [_ [_ [Hm' [Hw' [Ho _]]]]]]]]]];
    try (cbn [MaskModel.lengths fst snd]; lra);
    try (cbn [np.shape mask_with_2 fst snd]; lia);
    try assumption.
  - rewrite Hfo, Hco. repeat constructor; eexists; reflexivity.
  - exists m', wp', s. repeat split; assumption.
Defined.

(** X13.  With a positive size and depth and a mask with a row and a
    column, [show_axis] adds one solid to the model, the three axis
    markers about the origin, each 0.1 x 0.1 x 20; without it the model
    holds the solids of the frame, of the connection and the aperture
    boxes only. *)
Theorem show_axis_adds_the_markers {F C : Type} `{Frame F} `{Connection C}
    (mask : np.ndarray) (frame : F) (connection : C)
    (sz : MaskModel.size_arg) (depth : R) (fm cm : cq.Workplane) :
  let mask_size :=
    (fst (MaskModel.lengths sz) * 1000, snd (MaskModel.lengths sz) * 1000) in
  0 < fst (MaskModel.lengths sz) -> 0 < snd (MaskModel.lengths sz) ->
  0 < depth ->
  (0 < fst (np.shape mask))%nat -> (0 < snd (np.shape mask))%nat ->
  Frame_generate frame mask_size depth = Ok fm ->
  Connection_generate connection mask mask_size depth = Ok cm ->
  exists axis,
    (forall x y z,
       cq.inside axis (cq.V3 x y z) <->
       (- (1 / 20) <= x <= 1 / 20 /\ - (1 / 20) <= y <= 1 / 20 /\
        - 10 <= z <= 10) \/
       (- (1 / 20) <= x <= 1 / 20 /\ - 10 <= y <= 10 /\
        - (1 / 20) <= z <= 1 / 20) \/
       (- 10 <= x <= 10 /\ - (1 / 20) <= y <= 1 / 20 /\
        - (1 / 20) <= z <= 1 / 20)) /\
    forall show_axis,
    exists m wp,
      MaskModel.__init__ mask frame connection sz depth false show_axis = Ok m /\
      MaskModel.model m = Some wp /\
      cq.solids (cq.objects wp) =
        cq.solids (cq.objects fm) ++ cq.solids (cq.objects cm) ++
        MaskModel.aperture_boxes mask mask_size depth ++
        (if show_axis then [axis] else []).
Proof.
  intros mask_size Hsa Hsb Hd HH HW Hf Hc.
  destruct (MaskModel_init_stack mask frame connection sz depth fm cm
              Hsa Hsb Hd HH HW Hf Hc)
    as [axis [Ha Hflags]].
  exists axis. split.
  - destruct axis_test_objects as [axis_wp [Eo Ho]].
    rewrite Eo in Ha. cbn [cq.vals bind] in Ha. rewrite Ho in Ha.
    injection Ha as <-.
    intros x y z. cbn [cq.inside cq.vx cq.vy cq.vz]. lra.
  - intros show_axis. apply (Hflags false show_axis).
    intros E. discriminate E.
Qed.

Lemma show_axis_adds_the_markers_witness :
  exists m wp,
    MaskModel.__init__ mask_with_2 (SimpleFrame.new 2)
      (CrossConnection.new (1 / 10) None)
      (MaskModel.size_tuple (1 / 1000) (1 / 1000)) (1 / 2) false true = Ok m /\
    MaskModel.model m = Some wp /\
    List.length (cq.solids (cq.objects wp)) = 5%nat.
Proof.
  destruct (sample_generators mask_with_2)
    as [fm [cm [fs [cs [Hf [Hc [Hfo Hco]]]]]]].
  destruct (@show_axis_adds_the_markers _ _ SimpleFrame_Frame
              CrossConnection_Connection mask_with_2 (SimpleFrame.new 2)
              (CrossConnection.new (1 / 10) None)
              (MaskModel.size_tuple (1 / 1000) (1 / 1000)) (1 / 2)
              fm cm)
    as [axis [_ Hm]];
    try (cbn [MaskModel.lengths fst snd]; lra);
    try (cbn [np.shape mask_with_2 fst snd]; lia);
    try assumption.
  destruct (Hm true) as [m [wp [E [Hw Hs]]]]. exists m, wp.
  split; [exact E | ]. split; [exact Hw | ].
  rewrite Hs, Hfo, Hco.
  rewrite aperture_boxes_cells;
    [ | cbn [MaskModel.lengths fst snd np.shape mask_with_2 INR]; lra ..
      | discriminate].
  reflexivity.
Defined.

(** * Failures of the constructor *)


(** What the constructor does when a generator does not return. *)
Lemma MaskModel_init_generator_fails {F C : Type} `{Frame F} `{Connection C}
    (mask : np.ndarray) (frame : F) (connection : C)
    (sz : MaskModel.size_arg) (depth : R) (simplify show_axis : bool) :
  let mask_size :=
    (fst (MaskModel.lengths sz) * 1000, snd (MaskModel.lengths sz) * 1000) in
  MaskModel.__init__ mask frame connection sz depth simplify show_axis =
  match Frame_generate frame mask_size depth with
  | Ok fm =>
      match Connection_generate connection mask mask_size depth with
      | Ok cm =>
          MaskModel.__init__ mask frame connection sz depth simplify show_axis
      | Raise e => Raise e
      | NoModel => NoModel
      end
  | Raise e => Raise e
  | NoModel => NoModel
  end.
Proof.
  intros mask_size.
  unfold MaskModel.__init__, MaskModel._generate_3d_model.
  replace (match sz with
           | MaskModel.size_tuple a b | MaskModel.size_array a b =>
               (a * 1000, b * 1000)
           end) with mask_size by (destruct sz; reflexivity).
  cbn [MaskModel.frame MaskModel.connections MaskModel.mask
       MaskModel.mask_size MaskModel.depth].
  destruct (Frame_generate frame mask_size depth) as [fm | ef | ];
    [ | reflexivity | reflexivity].
  destruct (Connection_generate connection mask mask_size depth)
    as [cm | ec | ]; reflexivity.
Qed.

(** Once both generators have returned, the kernel refuses the aperture
    box of a pixel size or a depth that is not positive. *)
Lemma MaskModel_init_refused {F C : Type} `{Frame F} `{Connection C}
    (mask : np.ndarray) (frame : F) (connection : C)
    (sz : MaskModel.size_arg) (depth : R) (simplify show_axis : bool)
    (fm cm : cq.Workplane) :
  let mask_size :=
    (fst (MaskModel.lengths sz) * 1000, snd (MaskModel.lengths sz) * 1000) in
  Frame_generate frame mask_size depth = Ok fm ->
  Connection_generate connection mask mask_size depth = Ok cm ->
  fst mask_size / INR (fst (np.shape mask)) <= 0 \/
  snd mask_size / INR (snd (np.shape mask)) <= 0 \/
  depth <= 0 ->
  MaskModel.__init__ mask frame connection sz depth simplify show_axis
  = Raise cq.domain_error.
Proof.
  intros mask_size Hf Hc Hbad.
  unfold MaskModel.__init__, MaskModel._generate_3d_model.
  replace (match sz with
           | MaskModel.size_tuple a b | MaskModel.size_array a b =>
               (a * 1000, b * 1000)
           end) with mask_size by (destruct sz; reflexivity).
  cbn [MaskModel.frame MaskModel.connections MaskModel.mask
       MaskModel.mask_size MaskModel.depth MaskModel.simplify
       MaskModel.show_axis].
  rewrite Hf, Hc, (mask_model_of_refused mask mask_size depth Hbad).
  reflexivity.
Qed.

(** [combine] raises on an empty stack only. *)
Lemma combine_not_raise (glue : bool) (wp : cq.Workplane) (e : exn) :
  cq.objects wp <> [] -> cq.combine glue wp <> Raise e.
Proof.
  unfold cq.combine. destruct (cq.objects wp) as [ | o objs];
    [contradiction | ].
  intros _. destruct (forallb cq.is_solid (o :: objs));
    [destruct (cq.solids (o :: objs)) | ]; discriminate.
Qed.

(** What is left of the constructor after the aperture boxes raises
    nothing, and a model it returns holds at least one solid. *)
Lemma MaskModel_init_after_boxes {F C : Type} `{Frame F} `{Connection C}
    (mask : np.ndarray) (frame : F) (connection : C)
    (sz : MaskModel.size_arg) (depth : R) (simplify show_axis : bool)
    (fm cm : cq.Workplane) :
  let mask_size :=
    (fst (MaskModel.lengths sz) * 1000, snd (MaskModel.lengths sz) * 1000) in
  Frame_generate frame mask_size depth = Ok fm ->
  Connection_generate connection mask mask_size depth = Ok cm ->
  0 < fst mask_size / INR (fst (np.shape mask)) ->
  0 < snd mask_size / INR (snd (np.shape mask)) ->
  0 < depth ->
  (forall e,
     MaskModel.__init__ mask frame connection sz depth simplify show_axis
     <> Raise e) /\
  (forall m,
     MaskModel.__init__ mask frame connection sz depth simplify show_axis
     = Ok m ->
     exists wp,
       MaskModel.model m = Some wp /\ cq.solids (cq.objects wp) <> []).
Proof.
  intros mask_size Hf Hc Hx Hy Hd.
  unfold MaskModel.__init__, MaskModel._generate_3d_model.
  replace (match sz with
           | MaskModel.size_tuple a b | MaskModel.size_array a b =>
               (a * 1000, b * 1000)
           end) with mask_size by (destruct sz; reflexivity).
  cbn [MaskModel.frame MaskModel.connections MaskModel.mask
       MaskModel.mask_size MaskModel.depth MaskModel.simplify
       MaskModel.show_axis].
  rewrite Hf, Hc, mask_model_of_Ok by assumption. cbn [bind].
  pose proof (aperture_boxes_nonempty mask mask_size depth Hx Hy Hd) as Hne.
  destruct axis_test_objects as [axis_wp [Ha Hao]].
  set (boxes := MaskModel.aperture_boxes mask mask_size depth) in *.
  destruct simplify.
  - destruct boxes as [ | b bs] eqn:Eb; [contradiction | ].
    destruct (combine_solids true
                (cq.mkWorkplane (map cq.OShape (b :: bs)) None None [] [])
                b bs (is_solid_map_OShape (b :: bs))
                (solids_map_OShape (b :: bs))) as [mm [-> Hmm]].
    cbn [bind cq.add cq.XY cq.objects app]. rewrite Hmm, Ha.
    destruct show_axis; cbn [bind cq.add cq.objects];
      match goal with
      | |- context [cq.combine false ?wp] =>
          assert (Hobj : cq.objects wp <> [])
            by (cbn [cq.objects]; intros En;
                repeat (apply app_eq_nil in En; destruct En as [En ?]);
                discriminate);
          pose proof (fun e => combine_not_raise false wp e Hobj) as Hnr;
          pose proof (combine_Ok_inv false wp) as Hinv;
          destruct (cq.combine false wp) as [wp' | e' | ]
      end; cbn [bind].
    + split; [intros e E; discriminate E | ].
      intros m E. injection E as <-. cbn [MaskModel.model].
      eexists. split; [reflexivity | ].
      destruct (Hinv wp' eq_refl) as [s ->]. discriminate.
    + exfalso. exact (Hnr e' eq_refl).
    + split; [intros e E; discriminate E | intros m E; discriminate E].
    + split; [intros e E; discriminate E | ].
      intros m E. injection E as <-. cbn [MaskModel.model].
      eexists. split; [reflexivity | ].
      destruct (Hinv wp' eq_refl) as [s ->]. discriminate.
    + exfalso. exact (Hnr e' eq_refl).
    + split; [intros e E; discriminate E | intros m E; discriminate E].
  - cbn [bind cq.add cq.XY cq.objects app].
    destruct show_axis; cbn [bind cq.add cq.objects]; rewrite ?Ha;
      cbn [bind cq.add cq.objects];
      (split; [intros e E; discriminate E | ]);
      intros m E; injection E as <-; cbn [MaskModel.model];
      eexists; (split; [reflexivity | ]); cbn [cq.objects];
      rewrite !solids_app, solids_map_OShape; intros En.
    + apply app_eq_nil in En. destruct En as [En _].
      apply app_eq_nil in En. destruct En as [_ En]. exact (Hne En).
    + apply app_eq_nil in En. destruct En as [_ En]. exact (Hne En).
Qed.



(** A constructed model always holds a workplane with at least one
    solid. *)
Lemma MaskModel_init_model {F C : Type} `{Frame F} `{Connection C}
    (mask : np.ndarray) (frame : F) (connection : C)
    (sz : MaskModel.size_arg) (depth : R) (simplify show_axis : bool)
    (m : MaskModel.t F C) :
  MaskModel.__init__ mask frame connection sz depth simplify show_axis = Ok m ->
  exists wp,
    MaskModel.model m = Some wp /\ cq.solids (cq.objects wp) <> [].
Proof.
  intros Hm. pose proof Hm as Hm'.
  rewrite (MaskModel_init_generator_fails mask frame connection sz depth
             simplify show_axis) in Hm'.
  set (mask_size :=
         (fst (MaskModel.lengths sz) * 1000,
          snd (MaskModel.lengths sz) * 1000)) in *.
  destruct (Frame_generate frame mask_size depth) as [fm | ef | ] eqn:Hf;
    [ | discriminate Hm' | discriminate Hm'].
  destruct (Connection_generate connection mask mask_size depth)
    as [cm | ec | ] eqn:Hc; [ | discriminate Hm' | discriminate Hm'].
  clear Hm'.
  destruct (Rlt_le_dec 0 (fst mask_size / INR (fst (np.shape mask))))
    as [Hx | Hx];
    [ | rewrite (MaskModel_init_refused mask frame connection sz depth
                   simplify show_axis fm cm Hf Hc (or_introl Hx)) in Hm;
        discriminate Hm].
  destruct (Rlt_le_dec 0 (snd mask_size / INR (snd (np.shape mask))))
    as [Hy | Hy];
    [ | rewrite (MaskModel_init_refused mask frame connection sz depth
                   simplify show_axis fm cm Hf Hc (or_intror (or_introl Hy)))
          in Hm;
        discriminate Hm].
  destruct (Rlt_le_dec 0 depth) as [Hd | Hd];
    [ | rewrite (MaskModel_init_refused mask frame connection sz depth
                   simplify show_axis fm cm Hf Hc (or_intror (or_intror Hd)))
          in Hm;
        discriminate Hm].
  destruct (MaskModel_init_after_boxes mask frame connection sz depth
              simplify show_axis fm cm Hf Hc Hx Hy Hd) as [_ Hmodel].
  exact (Hmodel m Hm).
Qed.

(** * Saving *)

(** X15.  [save] on a constructed model never fails its assertion: it hands the
    model's workplane, which holds at least one solid, to the exporter
    with the file name it was given, and returns what the exporter
    returns. *)
Theorem save_after_construction {F C : Type} `{Frame F} `{Connection C}
    (export : cq.Workplane -> string -> result unit)
    (mask : np.ndarray) (frame : F) (connection : C)
    (sz : MaskModel.size_arg) (depth : R) (simplify show_axis : bool)
    (m : MaskModel.t F C) (fname : string) :
  MaskModel.__init__ mask frame connection sz depth simplify show_axis = Ok m ->
  exists wp,
    MaskModel.model m = Some wp /\
    cq.solids (cq.objects wp) <> [] /\
    MaskModel.save export m fname = export wp fname /\
    ~ raises_class "AssertionError"
        (MaskModel.save (fun _ _ => Ok tt) m fname).
Proof.
  intros Hm.
  destruct (MaskModel_init_model mask frame connection sz depth simplify
              show_axis m Hm) as [wp [Hw Hs]].
  exists wp. split; [exact Hw | ]. split; [exact Hs | ].
  unfold MaskModel.save. rewrite Hw. split; [reflexivity | ].
  intros [e [E _]]. discriminate E.
Qed.

Lemma save_after_construction_witness :
  exists m,
    MaskModel.__init__ mask_with_2 (SimpleFrame.new 2)
      (CrossConnection.new (1 / 10) None)
      (MaskModel.size_tuple (1 / 1000) (1 / 1000)) (1 / 2) false false = Ok m /\
    MaskModel.save (fun _ _ => Ok tt) m "mask.step" = Ok tt.
Proof.
  destruct (sample_init mask_with_2) as [m [wp [fs [cs [Hm _]]]]];
    [cbn; lia | cbn; lia | ].
  exists m. split; [exact Hm | ].
  destruct (@save_after_construction _ _ SimpleFrame_Frame
              CrossConnection_Connection (fun _ _ => Ok tt) mask_with_2
              (SimpleFrame.new 2) (CrossConnection.new (1 / 10) None)
              (MaskModel.size_tuple (1 / 1000) (1 / 1000)) (1 / 2) false false
              m "mask.step" Hm) as [wp' [_ [_ [E _]]]].
  exact E.
Defined.

(** * Construction from a mask object *)

Lemma open_parameter_spec (k : string) :
  existsb (String.eqb k) MaskModel.open_parameters = true <->
  In k MaskModel.open_parameters.
Proof.
  rewrite existsb_exists. split.
  - intros [k' [Hin E]]. apply String.eqb_eq in E. subst k'. exact Hin.
  - intros Hin. exists k. split; [exact Hin | apply String.eqb_refl].
Qed.

(** X16.  [from_mask] takes the array and the sensor size from the mask object
    and leaves [depth], [simplify] and [show_axis] to the keywords.  Any
    other keyword, [mask_size] and [mask_array] included, is a TypeError,
    and so is a missing [depth], whatever the generators would do; with
    the keywords in order, a positive sensor size and depth, an array
    with a row and a column and both generators returning (with nothing
    but solids, when [simplify] is asked for), it returns a model of the
    mask's array, with the sensor size in millimetres and the given
    depth. *)
Theorem from_mask_keywords {F C : Type} `{Frame F} `{Connection C}
    (mask : MaskModel.Mask) (frame : F) (connection : C)
    (kw : MaskModel.kwargs) :
  (forall k v,
     In (k, v) kw -> ~ In k MaskModel.open_parameters ->
     raises_class "TypeError" (MaskModel.from_mask mask frame connection kw)) /\
  (MaskModel.kwargs_get "depth" kw = None ->
   raises_class "TypeError" (MaskModel.from_mask mask frame connection kw)) /\
  (forall d fm cm,
     (forall k v, In (k, v) kw -> In k MaskModel.open_parameters) ->
     MaskModel.kwargs_get "depth" kw = Some d ->
     let mask_size :=
       (fst (MaskModel.lengths (MaskModel.sensor_size mask)) * 1000,
        snd (MaskModel.lengths (MaskModel.sensor_size mask)) * 1000) in
     0 < fst (MaskModel.lengths (MaskModel.sensor_size mask)) ->
     0 < snd (MaskModel.lengths (MaskModel.sensor_size mask)) ->
     0 < MaskModel.as_float d ->
     (0 < fst (np.shape (MaskModel.Mask_mask mask)))%nat ->
     (0 < snd (np.shape (MaskModel.Mask_mask mask)))%nat ->
     Frame_generate frame mask_size (MaskModel.as_float d) = Ok fm ->
     Connection_generate connection (MaskModel.Mask_mask mask) mask_size
       (MaskModel.as_float d) = Ok cm ->
     (MaskModel.flag "simplify" kw = true ->
      Forall (fun o => exists s, o = cq.OShape s)
        (cq.objects fm ++ cq.objects cm)) ->
     exists m,
       MaskModel.from_mask mask frame connection kw = Ok m /\
       MaskModel.mask m = MaskModel.Mask_mask mask /\
       MaskModel.mask_size m = mask_size /\
       MaskModel.depth m = MaskModel.as_float d).
Proof.
  split; [ | split].
  - intros k v Hin Hbad. unfold MaskModel.from_mask.
    destruct (forallb _ kw) eqn:E.
    + exfalso. rewrite forallb_forall in E. specialize (E (k, v) Hin).
      cbn [fst] in E. apply open_parameter_spec in E. exact (Hbad E).
    + eexists. split; reflexivity.
  - intros Hd. unfold MaskModel.from_mask.
    destruct (forallb _ kw); [rewrite Hd | ]; eexists; split; reflexivity.
  - intros d fm cm Hkeys Hd mask_size Ha Hb Hdp HH HW Hf Hc Hsolid.
    unfold MaskModel.from_mask.
    assert (E : forallb
                  (fun kv => existsb (String.eqb (fst kv))
                               MaskModel.open_parameters) kw = true).
    { apply forallb_forall. intros [k v] Hin. cbn [fst].
      apply open_parameter_spec. exact (Hkeys k v Hin). }
    rewrite E, Hd.
    destruct (MaskModel_init_stack (MaskModel.Mask_mask mask) frame
                connection (MaskModel.sensor_size mask) (MaskModel.as_float d)
                fm cm Ha Hb Hdp HH HW Hf Hc) as [axis [_ Hflags]].
    destruct (Hflags (MaskModel.flag "simplify" kw)
                (MaskModel.flag "show_axis" kw) Hsolid) as [m [wp [Hm _]]].
    exists m. split; [exact Hm | ].
    exact (MaskModel_init_fields _ _ _ _ _ _ _ _ Hm).
Qed.

Lemma from_mask_keywords_witness :
  raises_class "TypeError"
    (MaskModel.from_mask
       (MaskModel.mkMask mask_with_2 (MaskModel.size_array (1 / 1000) (1 / 1000)))
       (SimpleFrame.new 2) (CrossConnection.new (1 / 10) None)
       [("simplify"%string, MaskModel.PyBool true)]) /\
  exists m,
    MaskModel.from_mask
      (MaskModel.mkMask mask_with_2 (MaskModel.size_array (1 / 1000) (1 / 1000)))
      (SimpleFrame.new 2) (CrossConnection.new (1 / 10) None)
      [("depth"%string, MaskModel.PyFloat (1 / 2));
       ("simplify"%string, MaskModel.PyBool true)] = Ok m /\
    MaskModel.depth m = 1 / 2.
Proof.
  split.
  - apply (@from_mask_keywords _ _ SimpleFrame_Frame
             CrossConnection_Connection). reflexivity.
  - destruct (sample_generators mask_with_2)
      as [fm [cm [fs [cs [Hf [Hc [Hfo Hco]]]]]]].
    destruct (@from_mask_keywords _ _ SimpleFrame_Frame
                CrossConnection_Connection
                (MaskModel.mkMask mask_with_2
                   (MaskModel.size_array (1 / 1000) (1 / 1000)))
                (SimpleFrame.new 2) (CrossConnection.new (1 / 10) None)
                [("depth"%string, MaskModel.PyFloat (1 / 2));
                 ("simplify"%string, MaskModel.PyBool true)])
      as [_ [_ Hok]].
    destruct (Hok (MaskModel.PyFloat (1 / 2)) fm cm)
      as [m [Hm [_ [_ Hdepth]]]];
      try (cbn [MaskModel.lengths MaskModel.sensor_size MaskModel.as_float
                fst snd]; lra);
      try (cbn [MaskModel.Mask_mask np.shape mask_with_2 fst snd]; lia);
      try assumption.
    + intros k v [E | [E | []]]; injection E as <- _;
        [left | right; left]; reflexivity.
    + reflexivity.
    + intros _. rewrite Hfo, Hco. repeat constructor; eexists; reflexivity.
    + exists m. split; [exact Hm | exact Hdepth].
Defined.
